(** * Query builders of the chart backend: a model of [database/charts.py]
      and [database/accounts.py].

    The Python functions build SQL text and positional parameter tuples; none
    of them talks to the database.  They are rendered here as pure functions
    on strings and lists.  Where a property speaks about what a query selects
    (the session-slot allocator, the outer filter of the page query, the
    decaying score), the SQL fragment in question is given a denotation next
    to the text that carries it. *)

From Stdlib Require Import ZArith QArith Rbase Rfunctions Exp_prop Rpower Qreals Lra Lia.
From stdpp Require Import base option list strings pretty gmap sorting.

Local Open Scope Z_scope.

(** ** Python values *)

(** Numbers a caller may pass: [int], [float] and [Decimal].  A float or
    Decimal is represented by its exact rational value; binary rounding,
    infinities and NaN are outside the model. *)
Inductive number : Type :=
  | NInt (z : Z)
  | NFloat (x : Q)
  | NDecimal (x : Q).

(** Values that end up in a parameter tuple. *)
Inductive pyval : Type :=
  | PyNone
  | PyStr (s : string)
  | PyBool (b : bool)
  | PyNum (n : number)
  | PyList (l : list string).

Definition PyInt (z : Z) : pyval := PyNum (NInt z).

(** [float(z)] for an [int] [z]. *)
Definition float (z : Z) : number := NFloat (inject_Z z).

(** Truth value testing ([if x:], [not x], [any]). *)
Class Truthy (A : Type) := truthy : A → bool.
Global Hint Mode Truthy ! : typeclass_instances.

Global Instance truthy_bool : Truthy bool := λ b, b.
Global Instance truthy_str : Truthy string :=
  λ s, match s with EmptyString => false | String _ _ => true end.
Global Instance truthy_int : Truthy Z := λ z, negb (Z.eqb z 0).
Global Instance truthy_number : Truthy number :=
  λ n, match n with
       | NInt z => negb (Z.eqb z 0)
       | NFloat x | NDecimal x => negb (Qeq_bool x 0)
       end.
Global Instance truthy_list {A} : Truthy (list A) :=
  λ l, match l with [] => false | _ :: _ => true end.
Global Instance truthy_option {A} `{Truthy A} : Truthy (option A) :=
  λ o, match o with None => false | Some x => truthy x end.

(** The value appended to a parameter list for a Python object. *)
Class ToPy (A : Type) := to_py : A → pyval.
Global Hint Mode ToPy ! : typeclass_instances.

Global Instance to_py_str : ToPy string := PyStr.
Global Instance to_py_bool : ToPy bool := PyBool.
Global Instance to_py_int : ToPy Z := PyInt.
Global Instance to_py_number : ToPy number := PyNum.
Global Instance to_py_list : ToPy (list string) := PyList.
Global Instance to_py_option {A} `{ToPy A} : ToPy (option A) :=
  λ o, match o with None => PyNone | Some x => to_py x end.

(** [any(xs)] over the truth values of the elements. *)
Definition any (xs : list bool) : bool := existsb id xs.

(** [sep.join(xs)]. *)
Definition join (sep : string) (xs : list string) : string := String.concat sep xs.

(** [str.lower] is a builtin of the host language; the development is
    parametric in it. *)
Class StrLower := str_lower : string → string.

(** Lower-casing of the ASCII letters, for evaluating the model. *)
Definition ascii_lower_char (c : Ascii.ascii) : Ascii.ascii :=
  let n := Ascii.nat_of_ascii c in
  if Nat.leb 65 n && Nat.leb n 90 then Ascii.ascii_of_nat (n + 32) else c.

Fixpoint ascii_lower (s : string) : string :=
  match s with
  | EmptyString => EmptyString
  | String c s' => String (ascii_lower_char c) (ascii_lower s')
  end.

Definition ascii_str_lower : StrLower := ascii_lower.

(** ** Exceptions *)

Inductive exn : Type :=
  | ValueError (msg : string).

Inductive result (A : Type) : Type :=
  | Return (a : A)
  | Raise (e : exn).
Global Arguments Return {A} a.
Global Arguments Raise {A} e.

(** ** Query descriptors ([database/query.py]) *)

(** Row models a [SelectQuery] can be tagged with. *)
Inductive row_model : Type :=
  | Count
  | ChartDBResponse
  | ChartDBResponseLiked
  | SessionData.

Module SelectQuery.
Record t : Type := mk { model : row_model; sql : string; args : list pyval }.
End SelectQuery.

Module ExecutableQuery.
Record t : Type := mk { sql : string; args : list pyval }.
End ExecutableQuery.

(** ** SQL text of [get_chart_list] *)

Definition inner_select_columns : string :=
  "
        SELECT 
            c.id, 
            c.title, 
            c.artists, 
            c.description, 
            c.tags,
            c.author,
            c.staff_pick,
            c.jacket_file_hash, 
            c.music_file_hash, 
            c.chart_file_hash,
            c.preview_file_hash, 
            c.background_file_hash,
            c.background_v3_file_hash,
            c.background_v1_file_hash,
            c.status,
            c.rating, 
            c.like_count,
            c.comment_count,
            c.created_at,
            c.published_at,
            c.updated_at,
            c.log_like_score,
            c.chart_author || '#' || a.sonolus_handle AS author_full,
            a.sonolus_handle as author_handle,
            c.chart_author AS chart_design,
            c.scheduled_publish
    ".

Definition liked_column : string :=
  ",
            CASE WHEN cl.sonolus_id IS NULL THEN FALSE ELSE TRUE END AS liked
        ".

Definition from_charts_join_accounts : string :=
  "
        FROM charts c
        JOIN accounts a ON c.author = a.sonolus_id
    ".

Definition join_chart_likes_clb : string :=
  " JOIN chart_likes clb ON c.id = clb.chart_id".

Definition left_join_chart_likes (len_params : nat) : string :=
  " LEFT JOIN chart_likes cl ON c.id = cl.chart_id AND cl.sonolus_id = $"
  +:+ pretty len_params.

Definition join_commented_by (len_params : nat) : string :=
  "
            JOIN (
                SELECT DISTINCT chart_id
                FROM comments
                WHERE commenter = $"
  +:+ pretty len_params
  +:+ "
            ) cmt ON c.id = cmt.chart_id
        ".

Definition score_expr_text (w_like w_comment w_staff : string) : string :=
  "(like_count * "
  +:+ w_like
  +:+ " + comment_count * "
  +:+ w_comment
  +:+ " + (CASE WHEN staff_pick THEN "
  +:+ w_staff
  +:+ " ELSE 0 END))".

Definition decaying_score_text (score_expr gravity : string) : string :=
  "(
        ("
  +:+ score_expr
  +:+ ") 
        /
        POWER((EXTRACT(EPOCH FROM (NOW() - COALESCE(published_at, created_at))) / 3600) + 2, "
  +:+ gravity
  +:+ ")
    )".

Definition query_text (inner_select filter_published_at_null sort_column sort_order_sql : string) (len_params : nat) : string :=
  "
        WITH chart_data AS (
            "
  +:+ inner_select
  +:+ "
        )
        SELECT *
        FROM chart_data
        WHERE 1=1 "
  +:+ filter_published_at_null
  +:+ "
        ORDER BY "
  +:+ sort_column
  +:+ " "
  +:+ sort_order_sql
  +:+ "
        LIMIT $"
  +:+ pretty (len_params + 1)%nat
  +:+ " OFFSET $"
  +:+ pretty (len_params + 2)%nat
  +:+ "
    ".

Definition count_query_text (inner_select : string) : string :=
  "
        WITH chart_data AS (
            "
  +:+ inner_select
  +:+ "
        )
        SELECT COUNT(*) AS total_count FROM chart_data
    ".

(** ** [get_chart_list] *)

(** The keyword arguments, with the names of the source. *)
Record ChartListArgs : Type := {
  page : Z;
  items_per_page : Z;
  min_rating : option Z;
  max_rating : option Z;
  status : option string;
  tags : option (list string);
  min_likes : option Z;
  max_likes : option Z;
  min_comments : option Z;
  max_comments : option Z;
  liked_by : option string;
  commented_by : option string;
  staff_pick : option bool;
  title_includes : option string;
  description_includes : option string;
  artists_includes : option string;
  author_includes : option string;
  sonolus_handle_is : option Z;
  sort_by : string;
  sort_order : string;
  sonolus_id : option string;
  meta_includes : option string;
  owned_by : option string
}.

(** A call that passes only the two positional arguments. *)
Definition default_args (page items_per_page : Z) : ChartListArgs := {|
  page := page;
  items_per_page := items_per_page;
  min_rating := None;
  max_rating := None;
  status := Some "PUBLIC";
  tags := None;
  min_likes := None;
  max_likes := None;
  min_comments := None;
  max_comments := None;
  liked_by := None;
  commented_by := None;
  staff_pick := None;
  title_includes := None;
  description_includes := None;
  artists_includes := None;
  author_includes := None;
  sonolus_handle_is := None;
  sort_by := "created_at";
  sort_order := "desc";
  sonolus_id := None;
  meta_includes := None;
  owned_by := None
|}.

(** The three locals the function mutates while it assembles the inner
    SELECT. *)
Record State : Type := {
  inner_select : string;
  conditions : list string;
  params : list pyval
}.

(** [params.append(v)] *)
Definition params_append (v : pyval) (st : State) : State :=
  {| inner_select := inner_select st;
     conditions := conditions st;
     params := params st ++ [v] |}.

(** [conditions.append(f"...${len(params)}...")] *)
Definition conditions_append (frag : nat → string) (st : State) : State :=
  {| inner_select := inner_select st;
     conditions := conditions st ++ [frag (length (params st))];
     params := params st |}.

(** [inner_select += f"...${len(params)}..."] *)
Definition inner_select_add (text : nat → string) (st : State) : State :=
  {| inner_select := inner_select st +:+ text (length (params st));
     conditions := conditions st;
     params := params st |}.

(** [f"%{s.lower()}%"] *)
Definition like_pattern `{StrLower} (s : string) : string :=
  "%" +:+ str_lower s +:+ "%".

(** [if x:] on an optional argument, with the value in hand. *)
Definition if_truthy {A} `{Truthy A} (o : option A) (body : A → State → State)
    (st : State) : State :=
  match o with
  | Some x => if truthy x then body x st else st
  | None => st
  end.

(** [if x is not None:] *)
Definition if_not_None {A} (o : option A) (body : A → State → State)
    (st : State) : State :=
  match o with
  | Some x => body x st
  | None => st
  end.

(** The predicate fragments, by the line that appends them. *)
Definition status_fragment (n : nat) : string :=
  "c.status = $" +:+ pretty n +:+ "::chart_status".
Definition staff_pick_fragment (n : nat) : string :=
  "c.staff_pick = $" +:+ pretty n +:+ "::BOOL".
Definition min_rating_fragment (n : nat) : string := "c.rating > $" +:+ pretty n.
Definition max_rating_fragment (n : nat) : string := "c.rating < $" +:+ pretty n.
Definition tags_fragment (n : nat) : string :=
  "c.tags @> $" +:+ pretty n +:+ "::text[]".
Definition min_likes_fragment (n : nat) : string := "c.like_count >= $" +:+ pretty n.
Definition max_likes_fragment (n : nat) : string := "c.like_count <= $" +:+ pretty n.
Definition min_comments_fragment (n : nat) : string :=
  "c.comment_count >= $" +:+ pretty n.
Definition max_comments_fragment (n : nat) : string :=
  "c.comment_count <= $" +:+ pretty n.
Definition liked_by_fragment (n : nat) : string := "clb.sonolus_id = $" +:+ pretty n.
Definition owned_by_fragment (n : nat) : string := "c.author = $" +:+ pretty n.
Definition handle_fragment (n : nat) : string := "a.sonolus_handle = $" +:+ pretty n.
Definition title_fragment (n : nat) : string := "LOWER(c.title) LIKE $" +:+ pretty n.
Definition description_fragment (n : nat) : string :=
  "LOWER(c.description) LIKE $" +:+ pretty n.
Definition artists_fragment (n : nat) : string :=
  "LOWER(c.artists) LIKE $" +:+ pretty n.
Definition author_fragment (n : nat) : string :=
  "LOWER(c.chart_author || '#' || a.sonolus_handle) LIKE $" +:+ pretty n.
Definition meta_fragment (n : nat) : string :=
  let placeholder := "$" +:+ pretty n in
  "(LOWER(c.title) LIKE " +:+ placeholder +:+ " "
  +:+ "OR LOWER(c.description) LIKE " +:+ placeholder +:+ " "
  +:+ "OR LOWER(c.chart_author || '#' || a.sonolus_handle) LIKE " +:+ placeholder +:+ " "
  +:+ "OR LOWER(c.artists) LIKE " +:+ placeholder +:+ ")".

Section GetChartList.
Context `{StrLower}.
Variable a : ChartListArgs.

(** Lines 83-124: the projection, the optional [liked] column, the FROM
    clause and the optional join for [liked_by]. *)
Definition initial_state : State :=
  let inner_select := inner_select_columns in
  let inner_select :=
    if truthy (sonolus_id a) then inner_select +:+ liked_column else inner_select in
  let inner_select := inner_select +:+ from_charts_join_accounts in
  let inner_select :=
    if truthy (liked_by a) then inner_select +:+ join_chart_likes_clb else inner_select in
  {| inner_select := inner_select; conditions := []; params := [] |}.

(** Lines 129-131 *)
Definition stmt_sonolus_id : State → State :=
  if_truthy (sonolus_id a) (λ v st,
    inner_select_add left_join_chart_likes (params_append (to_py v) st)).

(** Lines 133-135 *)
Definition stmt_status : State → State :=
  if_truthy (status a) (λ v st,
    conditions_append status_fragment (params_append (to_py v) st)).

(** Lines 137-139 *)
Definition stmt_staff_pick : State → State :=
  if_not_None (staff_pick a) (λ v st,
    conditions_append staff_pick_fragment (params_append (to_py v) st)).

(** Lines 141-144 *)
Definition stmt_min_rating : State → State :=
  if_not_None (min_rating a) (λ min_rating st,
    let min_rating := min_rating - 1 in
    conditions_append min_rating_fragment (params_append (to_py min_rating) st)).

(** Lines 145-148 *)
Definition stmt_max_rating : State → State :=
  if_not_None (max_rating a) (λ max_rating st,
    let max_rating := max_rating + 1 in
    conditions_append max_rating_fragment (params_append (to_py max_rating) st)).

(** Lines 150-152 *)
Definition stmt_tags : State → State :=
  if_truthy (tags a) (λ v st,
    conditions_append tags_fragment (params_append (to_py v) st)).

(** Lines 154-159 *)
Definition stmt_min_likes : State → State :=
  if_not_None (min_likes a) (λ v st,
    conditions_append min_likes_fragment (params_append (to_py v) st)).
Definition stmt_max_likes : State → State :=
  if_not_None (max_likes a) (λ v st,
    conditions_append max_likes_fragment (params_append (to_py v) st)).

(** Lines 161-166 *)
Definition stmt_min_comments : State → State :=
  if_not_None (min_comments a) (λ v st,
    conditions_append min_comments_fragment (params_append (to_py v) st)).
Definition stmt_max_comments : State → State :=
  if_not_None (max_comments a) (λ v st,
    conditions_append max_comments_fragment (params_append (to_py v) st)).

(** Lines 168-170 *)
Definition stmt_liked_by : State → State :=
  if_truthy (liked_by a) (λ v st,
    conditions_append liked_by_fragment (params_append (to_py v) st)).

(** Lines 171-179 *)
Definition stmt_commented_by : State → State :=
  if_truthy (commented_by a) (λ v st,
    inner_select_add join_commented_by (params_append (to_py v) st)).

(** Lines 180-185: [if owned_by: ... elif sonolus_handle_is: ...] *)
Definition stmt_owned_by_or_handle (st : State) : State :=
  if truthy (owned_by a) then
    conditions_append owned_by_fragment (params_append (to_py (owned_by a)) st)
  else if truthy (sonolus_handle_is a) then
    conditions_append handle_fragment
      (params_append (to_py (sonolus_handle_is a)) st)
  else st.

(** Lines 187-200 *)
Definition stmt_title_includes : State → State :=
  if_truthy (title_includes a) (λ v st,
    conditions_append title_fragment (params_append (PyStr (like_pattern v)) st)).
Definition stmt_description_includes : State → State :=
  if_truthy (description_includes a) (λ v st,
    conditions_append description_fragment
      (params_append (PyStr (like_pattern v)) st)).
Definition stmt_artists_includes : State → State :=
  if_truthy (artists_includes a) (λ v st,
    conditions_append artists_fragment (params_append (PyStr (like_pattern v)) st)).
Definition stmt_author_includes : State → State :=
  if_truthy (author_includes a) (λ v st,
    conditions_append author_fragment (params_append (PyStr (like_pattern v)) st)).

(** Lines 201-209 *)
Definition stmt_meta_includes : State → State :=
  if_truthy (meta_includes a) (λ v st,
    conditions_append meta_fragment (params_append (PyStr (like_pattern v)) st)).

(** Lines 211-212 *)
Definition stmt_where (st : State) : State :=
  if truthy (conditions st) then
    {| inner_select := inner_select st +:+ " WHERE " +:+ join " AND " (conditions st);
       conditions := conditions st;
       params := params st |}
  else st.

(** The filter statements of lines 129-209, in program order. *)
Definition filter_statements : list (State → State) :=
  [ stmt_sonolus_id; stmt_status; stmt_staff_pick; stmt_min_rating;
    stmt_max_rating; stmt_tags; stmt_min_likes; stmt_max_likes;
    stmt_min_comments; stmt_max_comments; stmt_liked_by; stmt_commented_by;
    stmt_owned_by_or_handle; stmt_title_includes; stmt_description_includes;
    stmt_artists_includes; stmt_author_includes; stmt_meta_includes ].

(** Running statements one after the other. *)
Definition run (stmts : list (State → State)) (st : State) : State :=
  foldl (λ st stmt, stmt st) st stmts.

(** The state once every filter has been looked at (line 210). *)
Definition compiled_filters : State := run filter_statements initial_state.

(** The state after line 212: [inner_select] is complete. *)
Definition compiled : State := stmt_where compiled_filters.
End GetChartList.

Definition W_LIKE : Z := 3.
Definition W_COMMENT : Z := 4.
Definition W_STAFF : Z := 30.
(** What [f"{GRAVITY}"] prints for the float literal [0.35]. *)
Definition GRAVITY_text : string := "0.35".

Definition score_expr : string :=
  score_expr_text (pretty W_LIKE) (pretty W_COMMENT) (pretty W_STAFF).

Definition decaying_score_sql : string := decaying_score_text score_expr GRAVITY_text.

(** Lines 227-236: the dict literal and its [.get(sort_by, "created_at")]. *)
Definition sort_columns : gmap string string :=
  list_to_map
    [ ("created_at", "created_at");
      ("published_at", "published_at");
      ("rating", "rating");
      ("likes", "like_count");
      ("comments", "comment_count");
      ("decaying_likes", decaying_score_sql);
      ("abc", "title");
      ("random", "RANDOM()") ].

Definition sort_column (sort_by : string) : string :=
  default "created_at" (sort_columns !! sort_by).

(** Line 238 *)
Definition sort_order_sql `{StrLower} (sort_order : string) : string :=
  if String.eqb (str_lower sort_order) "desc" then "DESC" else "ASC".

(** Lines 240-242 *)
Definition filter_published_at_null (sort_column : string) : string :=
  if String.eqb sort_column "published_at" then "AND published_at IS NOT NULL" else "".

(** Lines 244-273 *)
Definition get_chart_list `{StrLower} (a : ChartListArgs)
    : SelectQuery.t * SelectQuery.t :=
  let st := compiled a in
  let inner_select := inner_select st in
  let params := params st in
  let sort_column := sort_column (sort_by a) in
  let sort_order_sql := sort_order_sql (sort_order a) in
  let filter_published_at_null := filter_published_at_null sort_column in
  let query :=
    query_text inner_select filter_published_at_null sort_column sort_order_sql
      (length params) in
  let count_query := count_query_text inner_select in
  let count_params := params in
  let data_params :=
    params ++ [PyInt (items_per_page a); PyInt (page a * items_per_page a)] in
  ( SelectQuery.mk Count count_query count_params,
    SelectQuery.mk
      (if negb (truthy (sonolus_id a)) then ChartDBResponse else ChartDBResponseLiked)
      query data_params ).

(** ** SQL text and messages of the mutations *)

Definition delete_chart_not_confirmed : string :=
  "Deletion not confirmed. Ensure you are deleting the old files from S3 to ensure there is no hanging files.".

Definition delete_chart_any_author_sql : string :=
  "
                DELETE FROM charts
                USING accounts a
                WHERE charts.id = $1
                AND charts.author = a.sonolus_id
                RETURNING
                    charts.*,
                    charts.chart_author AS chart_design,
                    a.sonolus_handle AS author_handle;
            ".

Definition delete_chart_by_author_sql : string :=
  "
                DELETE FROM charts
                USING accounts a
                WHERE charts.id = $1
                AND charts.author = $2
                AND charts.author = a.sonolus_id
                RETURNING
                    charts.*,
                    charts.chart_author AS chart_design,
                    a.sonolus_handle AS author_handle;
            ".

Definition update_metadata_no_field : string :=
  "At least one field must be updated.".

Definition update_metadata_text (set_clause : string) (len_args : nat) : string :=
  "
        UPDATE charts
        SET "
  +:+ set_clause
  +:+ "
        WHERE id = $"
  +:+ pretty len_args
  +:+ ";
    ".

Definition file_hash_not_confirmed : string :=
  "File hash change is not confirmed. Ensure you are deleting the old files from S3 to avoid dangling files.".

Definition file_hash_jacket_without_v1_v3 : string :=
  "Must regenerate v1/v3 on jacket change".

Definition file_hash_no_field : string :=
  "At least one file hash must be updated.".

Definition update_file_hash_text (set_clause : string) (len_args : nat) : string :=
  "
        UPDATE charts
        SET "
  +:+ set_clause
  +:+ "
        WHERE id = $"
  +:+ pretty len_args
  +:+ ";
    ".

Definition delete_account_not_confirmed : string :=
  "Deletion not confirmed. Ensure you are deleting the old chart files from S3 to ensure there is no hanging files.".

Definition delete_account_sql : string :=
  "
            DELETE FROM accounts
            WHERE sonolus_id = $1;
        ".

(** ** Mutations of [charts.py] and [accounts.py] *)

(** Lines 396-434 *)
Definition delete_chart (chart_id : string) (sonolus_id : option string)
    (confirm_change : bool) : result SelectQuery.t :=
  if negb confirm_change then Raise (ValueError delete_chart_not_confirmed)
  else if negb (truthy sonolus_id) then
    Return (SelectQuery.mk ChartDBResponse delete_chart_any_author_sql [PyStr chart_id])
  else
    Return (SelectQuery.mk ChartDBResponse delete_chart_by_author_sql
              [PyStr chart_id; to_py sonolus_id]).

(** [accounts.py], lines 281-293 *)
Definition delete_account (sonolus_id : string) (confirm_change : bool)
    : result ExecutableQuery.t :=
  if negb confirm_change then Raise (ValueError delete_account_not_confirmed)
  else Return (ExecutableQuery.mk delete_account_sql [PyStr sonolus_id]).

(** The two lists the update builders fill: [set_fields] and [args]. *)
Record SetList : Type := {
  set_fields : list string;
  args : list pyval
}.

(** The local helper [add_field] of both update builders. *)
Definition add_field (field_name : string) (value : pyval) (s : SetList) : SetList :=
  let args := args s ++ [value] in
  {| set_fields := set_fields s ++ [field_name +:+ " = $" +:+ pretty (length args)];
     args := args |}.

(** [set_fields.append(text)] *)
Definition set_fields_append (text : string) (s : SetList) : SetList :=
  {| set_fields := set_fields s ++ [text]; args := args s |}.

(** [if value is not None: add_field(name, value)] *)
Definition add_if_not_None {A} `{ToPy A} (field_name : string) (value : option A)
    (s : SetList) : SetList :=
  match value with
  | Some v => add_field field_name (to_py v) s
  | None => s
  end.

(** [if value is not None: add_field(name, value)
     elif flag: set_fields.append(f"{name} = NULL")] *)
Definition add_or_null {A} `{ToPy A} (field_name : string) (value : option A)
    (flag : bool) (s : SetList) : SetList :=
  match value with
  | Some v => add_field field_name (to_py v) s
  | None => if flag then set_fields_append (field_name +:+ " = NULL") s else s
  end.

(** Lines 437-496 *)
Definition update_metadata (chart_id : string) (chart_author : option string)
    (rating : option number) (description title artists : option string)
    (tags : option (list string)) (update_none_description : bool)
    : result ExecutableQuery.t :=
  if negb (any [ truthy rating; truthy description; truthy title; truthy artists;
                 truthy tags; truthy chart_author; truthy update_none_description ])
  then Raise (ValueError update_metadata_no_field)
  else
    let rating :=
      match rating with
      | Some (NInt z) => Some (float z)
      | _ => rating
      end in
    let s := {| set_fields := []; args := [] |} in
    let s := add_if_not_None "rating" rating s in
    let s := add_if_not_None "chart_author" chart_author s in
    let s := add_or_null "description" description update_none_description s in
    let s := add_if_not_None "title" title s in
    let s := add_if_not_None "artists" artists s in
    let s := add_if_not_None "tags" tags s in
    let s := set_fields_append "updated_at = CURRENT_TIMESTAMP" s in
    let set_clause := join ", " (set_fields s) in
    let args := args s ++ [PyStr chart_id] in
    Return (ExecutableQuery.mk (update_metadata_text set_clause (length args)) args).

(** Lines 499-560 *)
Definition update_file_hash (chart_id : string)
    (jacket_hash v1_hash v3_hash music_hash chart_hash preview_hash
       background_hash : option string)
    (confirm_change update_none_preview update_none_background : bool)
    : result ExecutableQuery.t :=
  if negb confirm_change then Raise (ValueError file_hash_not_confirmed)
  else if truthy jacket_hash && negb (truthy v1_hash && truthy v3_hash) then
    Raise (ValueError file_hash_jacket_without_v1_v3)
  else
    let s := {| set_fields := []; args := [] |} in
    let s := add_if_not_None "jacket_file_hash" jacket_hash s in
    let s := add_if_not_None "background_v1_file_hash" v1_hash s in
    let s := add_if_not_None "background_v3_file_hash" v3_hash s in
    let s := add_if_not_None "music_file_hash" music_hash s in
    let s := add_if_not_None "chart_file_hash" chart_hash s in
    let s := add_or_null "preview_file_hash" preview_hash update_none_preview s in
    let s := add_or_null "background_file_hash" background_hash update_none_background s in
    let s := set_fields_append "updated_at = CURRENT_TIMESTAMP" s in
    if negb (truthy (set_fields s)) then Raise (ValueError file_hash_no_field)
    else
      let set_clause := join ", " (set_fields s) in
      let args := args s ++ [PyStr chart_id] in
      Return (ExecutableQuery.mk (update_file_hash_text set_clause (length args)) args).

(** ** SQL text of the session allocator *)

Definition invalid_session_type : string :=
  "invalid session type. must be 'game' or 'external'.".

Definition upsert_account_sql : string :=
  "
        INSERT INTO accounts (sonolus_id, sonolus_handle, sonolus_username, sonolus_sessions)
        VALUES ($1, $2, $3, jsonb_build_object('game','{}'::jsonb,'external','{}'::jsonb))
        ON CONFLICT (sonolus_id) DO UPDATE
        SET sonolus_username = EXCLUDED.sonolus_username;
        ".

Definition session_slot_sql : string :=
  "
        WITH slot_to_use AS (
            SELECT
                CASE
                    WHEN jsonb_extract_path(sonolus_sessions, $2, '1') IS NULL OR
                        (jsonb_extract_path(sonolus_sessions, $2, '1')->>'expires')::bigint < extract(epoch from now())*1000
                    THEN '1'
                    WHEN jsonb_extract_path(sonolus_sessions, $2, '2') IS NULL OR
                        (jsonb_extract_path(sonolus_sessions, $2, '2')->>'expires')::bigint < extract(epoch from now())*1000
                    THEN '2'
                    WHEN jsonb_extract_path(sonolus_sessions, $2, '3') IS NULL OR
                        (jsonb_extract_path(sonolus_sessions, $2, '3')->>'expires')::bigint < extract(epoch from now())*1000
                    THEN '3'
                    ELSE (
                        SELECT key
                        FROM jsonb_each(jsonb_extract_path(sonolus_sessions, $2)) AS t(key,val)
                        ORDER BY (val->>'expires')::bigint ASC
                        LIMIT 1
                    )
                END AS slot
            FROM accounts
            WHERE sonolus_id=$1
        )
        UPDATE accounts a
        SET sonolus_sessions = jsonb_set(
            a.sonolus_sessions,
            array[$2, s.slot],
            jsonb_build_object(
                'session_key', $3::text,
                'expires', $4::bigint
            ),
            true
        )
        FROM slot_to_use s
        WHERE a.sonolus_id=$1
        RETURNING 
            (jsonb_extract_path(a.sonolus_sessions, $2, s.slot)->>'session_key')::text AS session_key,
            (jsonb_extract_path(a.sonolus_sessions, $2, s.slot)->>'expires')::bigint AS expires;
        ".

(** ** The session allocator ([accounts.py], lines 110-190) *)

(** [expiry_time] is the integer lines 127-130 compute from the wall clock
    and [expiry_ms]; it is taken as given. *)
Definition create_account_if_not_exists_and_new_session
    (session_key sonolus_id : string) (sonolus_handle : Z)
    (sonolus_username session_type : string) (expiry_time : Z)
    : result (ExecutableQuery.t * SelectQuery.t) :=
  if negb (bool_decide (session_type ∈ ["game"; "external"])) then
    Raise (ValueError invalid_session_type)
  else
    let upsert_query :=
      ExecutableQuery.mk upsert_account_sql
        [PyStr sonolus_id; PyInt sonolus_handle; PyStr sonolus_username] in
    let session_query :=
      SelectQuery.mk SessionData session_slot_sql
        [PyStr sonolus_id; PyStr session_type; PyStr session_key; PyInt expiry_time] in
    Return (upsert_query, session_query).

(** *** What [session_slot_sql] does to the [accounts] table *)

(** One entry of the JSON object [sonolus_sessions -> session_type]. *)
Record Session : Type := {
  session_key : string;
  expires : Z
}.

(** The slots of one session type, keyed ["1"], ["2"], ["3"]. *)
Abbreviation Slots := (gmap string Session).
(** The column [sonolus_sessions], keyed by session type. *)
Abbreviation Sessions := (gmap string (gmap string Session)).
(** The table [accounts] as far as the query reads and writes it: the
    [sonolus_sessions] column by [sonolus_id]. *)
Abbreviation Accounts := (gmap string (gmap string (gmap string Session))).

(** The order [ORDER BY (val->>'expires')::bigint ASC] asks for, on the
    (key, value) rows of [jsonb_each]. *)
Definition by_expires (x y : string * Session) : Prop := expires x.2 ≤ expires y.2.

Global Instance by_expires_dec (x y : string * Session) : Decision (by_expires x y) :=
  Z_le_dec (expires x.2) (expires y.2).

(** [ORDER BY (val->>'expires')::bigint ASC] as the database provides it: the
    rows come back rearranged and ascending in [expires]; the query names no
    second sort key, so the order among equal [expires] is the engine's. *)
Class OrderBy : Type := {
  order_by_expires : list (string * Session) → list (string * Session);
  order_by_expires_perm :
    ∀ rows, order_by_expires rows ≡ₚ rows;
  order_by_expires_sorted :
    ∀ rows, Sorted by_expires (order_by_expires rows)
}.

(** [jsonb_extract_path(sonolus_sessions, $2, slot)] *)
Definition jsonb_extract_path (s : Sessions) (session_type slot : string)
    : option Session :=
  s !! session_type ≫= λ slots, slots !! slot.

(** [jsonb_each(jsonb_extract_path(sonolus_sessions, $2))] *)
Definition jsonb_each (s : Sessions) (session_type : string)
    : list (string * Session) :=
  match s !! session_type with
  | Some slots => map_to_list slots
  | None => []
  end.

(** [x IS NULL OR (x->>'expires')::bigint < extract(epoch from now())*1000];
    [now_ms] is the value of the right-hand side. *)
Definition null_or_expired (now_ms : Q) (x : option Session) : bool :=
  match x with
  | None => true
  | Some v => if Qlt_le_dec (inject_Z (expires v)) now_ms then true else false
  end.

(** The CTE [slot_to_use]: the CASE expression of lines 149-165. *)
Definition slot_to_use `{OrderBy} (now_ms : Q) (s : Sessions) (session_type : string)
    : option string :=
  if null_or_expired now_ms (jsonb_extract_path s session_type "1") then Some "1"
  else if null_or_expired now_ms (jsonb_extract_path s session_type "2") then Some "2"
  else if null_or_expired now_ms (jsonb_extract_path s session_type "3") then Some "3"
  else fst <$> head (order_by_expires (jsonb_each s session_type)).

(** [jsonb_set(sonolus_sessions, array[$2, slot], value, true)]: the last
    path element is created when missing, an absent parent leaves the
    document as it is. *)
Definition jsonb_set (s : Sessions) (session_type slot : string) (value : Session)
    : Sessions :=
  match s !! session_type with
  | Some slots => <[session_type := <[slot := value]> slots]> s
  | None => s
  end.

(** A row of the RETURNING clause; [None] is SQL NULL. *)
Record SessionDataRow : Type := {
  returned_session_key : option string;
  returned_expires : option Z
}.

(** Failures raised by the database while it runs a statement. *)
Inductive db_error : Type :=
  | NullPathElement
  | WrongParameters.

(** The whole statement of lines 147-183 against a table, at a moment
    [now_ms], with the parameter tuple [args] (its elements are the
    placeholders $1 to $4): the new table and the returned rows.  RETURNING
    reads the row as written. *)
Definition run_session_query `{OrderBy} (now_ms : Q) (args : list pyval)
    (accounts : Accounts) : db_error + Accounts * list SessionDataRow :=
  match args with
  | [PyStr p1; PyStr p2; PyStr p3; PyNum (NInt p4)] =>
      match accounts !! p1 with
      | None => inr (accounts, [])
      | Some s =>
          match slot_to_use now_ms s p2 with
          | None => inl NullPathElement
          | Some slot =>
              let written :=
                jsonb_set s p2 slot {| session_key := p3; expires := p4 |} in
              inr (<[p1 := written]> accounts,
                   [ {| returned_session_key :=
                          session_key <$> jsonb_extract_path written p2 slot;
                        returned_expires :=
                          expires <$> jsonb_extract_path written p2 slot |} ])
          end
      end
  | _ => inl WrongParameters
  end.

(** *** The allocator in the words of the specification *)

(** Scan slots 1, 2, 3; take the first that is empty or expired; when all
    three are active take the one with the least expiry, the lowest index
    winning a tie. *)
Definition least_expiry_lowest_index (slots : Slots) : option string :=
  foldl
    (λ best k,
       match best, slots !! k with
       | None, Some _ => Some k
       | Some b, Some v =>
           match slots !! b with
           | Some w => if bool_decide (expires v < expires w) then Some k else Some b
           | None => Some k
           end
       | _, None => best
       end)
    None ["1"; "2"; "3"].

Definition spec_slot_to_use (now_ms : Q) (slots : Slots) : option string :=
  match List.find (λ k, null_or_expired now_ms (slots !! k)) ["1"; "2"; "3"] with
  | Some k => Some k
  | None => least_expiry_lowest_index slots
  end.

(** ** What the outer queries of [get_chart_list] select *)

(** A row of the CTE [chart_data], as far as the outer queries look at it. *)
Record ChartDataRow : Type := {
  row_id : string;
  row_published_at : option Z
}.

(** The outer [WHERE 1=1 {filter_published_at_null}] of the page query; the
    fragment is either empty or the not-null test. *)
Definition outer_where (fragment : string) (r : ChartDataRow) : bool :=
  if String.eqb fragment "AND published_at IS NOT NULL"
  then bool_decide (is_Some (row_published_at r))
  else true.

(** Rows of the page query before ORDER BY, LIMIT and OFFSET. *)
Definition page_rows (sort_by : string) (chart_data : list ChartDataRow)
    : list ChartDataRow :=
  List.filter (outer_where (filter_published_at_null (sort_column sort_by))) chart_data.

(** Rows [SELECT COUNT( * ) AS total_count FROM chart_data] counts: the CTE has
    no outer WHERE there. *)
Definition counted_rows (chart_data : list ChartDataRow) : list ChartDataRow :=
  chart_data.

(** ** The rating comparisons on an integer rating *)


(** ** The decaying score over the reals *)



(** ** Vocabulary for statements about the compiled state *)

(** [st'] is [st] with conditions and parameters appended at the end. *)
Definition extends (st st' : State) : Prop :=
  conditions st `prefix_of` conditions st' ∧ params st `prefix_of` params st'.

(** No condition of [st] is recognised by [p]. *)
Definition no_condition (p : string → bool) (st : State) : Prop :=
  Forall (λ c, p c = false) (conditions st).

(** The arguments [a] with the meta filter left out. *)
Definition without_meta_includes (a : ChartListArgs) : ChartListArgs := {|
  page := page a;
  items_per_page := items_per_page a;
  min_rating := min_rating a;
  max_rating := max_rating a;
  status := status a;
  tags := tags a;
  min_likes := min_likes a;
  max_likes := max_likes a;
  min_comments := min_comments a;
  max_comments := max_comments a;
  liked_by := liked_by a;
  commented_by := commented_by a;
  staff_pick := staff_pick a;
  title_includes := title_includes a;
  description_includes := description_includes a;
  artists_includes := artists_includes a;
  author_includes := author_includes a;
  sonolus_handle_is := sonolus_handle_is a;
  sort_by := sort_by a;
  sort_order := sort_order a;
  sonolus_id := sonolus_id a;
  meta_includes := None;
  owned_by := owned_by a
|}.

(** A call with most filters set, for evaluating the model: ratings 5 to 9,
    an owner and a handle, a meta substring. *)
Definition busy_args : ChartListArgs := {|
  page := 1;
  items_per_page := 20;
  min_rating := Some 5;
  max_rating := Some 9;
  status := Some "PUBLIC";
  tags := Some ["boss"];
  min_likes := None;
  max_likes := Some 3;
  min_comments := None;
  max_comments := None;
  liked_by := Some "u1";
  commented_by := Some "u2";
  staff_pick := Some false;
  title_includes := Some "HeLLo";
  description_includes := None;
  artists_includes := None;
  author_includes := None;
  sonolus_handle_is := Some 1234;
  sort_by := "published_at";
  sort_order := "ASC";
  sonolus_id := Some "me";
  meta_includes := Some "Xy";
  owned_by := Some "owner-1"
|}.

(** A call whose optional filters are all falsy without being [None]. *)
Definition falsy_args : ChartListArgs := {|
  page := 0;
  items_per_page := 10;
  min_rating := None;
  max_rating := None;
  status := Some "";
  tags := Some [];
  min_likes := None;
  max_likes := None;
  min_comments := None;
  max_comments := None;
  liked_by := None;
  commented_by := None;
  staff_pick := None;
  title_includes := Some "";
  description_includes := Some "";
  artists_includes := Some "";
  author_includes := Some "";
  sonolus_handle_is := Some 0;
  sort_by := "created_at";
  sort_order := "desc";
  sonolus_id := None;
  meta_includes := Some "";
  owned_by := None
|}.

(** ** Vocabulary for statements about the allocator *)

(** [slot] is what the CASE expression may choose from [slots] at [now_ms]:
    the first of "1", "2", "3" that is missing or expired, and otherwise a
    slot whose [expires] no other slot undercuts. *)
Definition first_free_or_least_expiry (now_ms : Q) (slots : Slots) (slot : string)
    : Prop :=
  (slot = "1" ∧ null_or_expired now_ms (slots !! "1") = true) ∨
  (slot = "2" ∧ null_or_expired now_ms (slots !! "1") = false
              ∧ null_or_expired now_ms (slots !! "2") = true) ∨
  (slot = "3" ∧ null_or_expired now_ms (slots !! "1") = false
              ∧ null_or_expired now_ms (slots !! "2") = false
              ∧ null_or_expired now_ms (slots !! "3") = true) ∨
  (null_or_expired now_ms (slots !! "1") = false
   ∧ null_or_expired now_ms (slots !! "2") = false
   ∧ null_or_expired now_ms (slots !! "3") = false
   ∧ ∃ v, slots !! slot = Some v
          ∧ ∀ slot' v', slots !! slot' = Some v' → expires v ≤ expires v').

(** Two sorting procedures an engine might run for the ORDER BY: stdpp's
    merge sort and a textbook insertion sort. *)
Definition merge_sort_rows (rows : list (string * Session)) : list (string * Session) :=
  merge_sort by_expires rows.

Fixpoint insert_row (x : string * Session) (rows : list (string * Session))
    : list (string * Session) :=
  match rows with
  | [] => [x]
  | y :: rows' =>
      if bool_decide (expires x.2 ≤ expires y.2) then x :: rows
      else y :: insert_row x rows'
  end.

Definition insertion_sort_rows (rows : list (string * Session))
    : list (string * Session) :=
  foldr insert_row [] rows.

(** Three active sessions, the first two expiring at the same millisecond. *)
Definition tied_slots : Slots :=
  <["1" := {| session_key := "k1"; expires := 100 |}]>
    (<["2" := {| session_key := "k2"; expires := 100 |}]>
       (<["3" := {| session_key := "k3"; expires := 200 |}]> ∅)).

Definition tied_sessions : Sessions :=
  <["game" := tied_slots]> (<["external" := ∅]> ∅).

(** * Further functions of [charts.py] and [accounts.py] *)

(** ** SQL text *)

Definition random_charts_columns : string :=
  "
        SELECT 
            c.id,
            c.title,
            c.author,
            c.artists,
            c.staff_pick,
            c.description,
            c.tags,
            c.jacket_file_hash,
            c.music_file_hash,
            c.chart_file_hash,
            c.preview_file_hash,
            c.background_file_hash,
            c.background_v3_file_hash,
            c.background_v1_file_hash,
            c.status,
            c.rating,
            c.like_count,
            c.comment_count,
            c.created_at,
            c.published_at,
            c.updated_at,
            c.chart_author || '#' || a.sonolus_handle AS author_full,
            a.sonolus_handle as author_handle,
            c.chart_author AS chart_design,
            c.scheduled_publish
    ".

Definition random_charts_liked_column : string :=
  ", CASE WHEN cl.sonolus_id IS NULL THEN FALSE ELSE TRUE END AS liked".

Definition random_charts_from : string :=
  "
        FROM charts c
        JOIN accounts a ON c.author = a.sonolus_id
    ".

Definition random_charts_left_join (len_params : nat) : string :=
  "
            LEFT JOIN chart_likes cl ON c.id = cl.chart_id AND cl.sonolus_id = $"
  +:+ pretty len_params
  +:+ "
        ".

Definition random_charts_where_public : string :=
  " WHERE c.status = 'PUBLIC'".

Definition random_charts_staff_pick (len_params : nat) : string :=
  " AND c.staff_pick = $"
  +:+ pretty len_params
  +:+ "::bool".

Definition random_charts_order_limit : string :=
  " ORDER BY RANDOM() LIMIT $1".

Definition account_from_session_sql (session_type : string) : string :=
  "
            SELECT *
            FROM accounts
            WHERE sonolus_id = $1
            AND EXISTS (
                SELECT 1
                FROM jsonb_each(COALESCE(sonolus_sessions->'"
  +:+ session_type
  +:+ "', '{}'::jsonb)) AS sessions(slot, data)
                WHERE data->>'session_key' = $2::text
                    AND (data->>'expires')::bigint > EXTRACT(EPOCH FROM NOW()) * 1000
            )
            LIMIT 1;
        ".

Definition set_admin_only_sql : string :=
  "
                UPDATE accounts
                SET admin = $1, updated_at = CURRENT_TIMESTAMP
                WHERE sonolus_id = $2;
            ".

Definition set_admin_and_mod_sql : string :=
  "
                UPDATE accounts
                SET admin = $1, mod = $1, updated_at = CURRENT_TIMESTAMP
                WHERE sonolus_id = $2;
            ".

Definition set_mod_only_sql : string :=
  "
                UPDATE accounts
                SET mod = $1, updated_at = CURRENT_TIMESTAMP
                WHERE sonolus_id = $2;
            ".

Definition set_mod_and_admin_sql : string :=
  "
                UPDATE accounts
                SET mod = $1, admin = $1, updated_at = CURRENT_TIMESTAMP
                WHERE sonolus_id = $2;
            ".

(** ** [get_random_charts] ([charts.py], lines 276-339) *)

Definition get_random_charts (return_count : Z) (sonolus_id : option string)
    (staff_pick : option bool) : SelectQuery.t :=
  let base_query := random_charts_columns in
  let params := [PyInt return_count] in
  let base_query :=
    if truthy sonolus_id then base_query +:+ random_charts_liked_column
    else base_query in
  let base_query := base_query +:+ random_charts_from in
  let params := if truthy sonolus_id then params ++ [to_py sonolus_id] else params in
  let base_query :=
    if truthy sonolus_id then base_query +:+ random_charts_left_join (length params)
    else base_query in
  let base_query := base_query +:+ random_charts_where_public in
  let params :=
    match staff_pick with
    | Some v => params ++ [to_py v]
    | None => params
    end in
  let base_query :=
    match staff_pick with
    | Some _ => base_query +:+ random_charts_staff_pick (length params)
    | None => base_query
    end in
  let base_query := base_query +:+ random_charts_order_limit in
  if truthy sonolus_id then SelectQuery.mk ChartDBResponseLiked base_query params
  else SelectQuery.mk ChartDBResponse base_query params.

(** ** Paging: what [LIMIT] and [OFFSET] keep *)

(** [LIMIT limit OFFSET offset] over rows already in ORDER BY order; the
    database rejects a negative limit or offset. *)
Definition limit_offset {A} (limit offset : Z) (ordered : list A) : option (list A) :=
  if (limit <? 0) || (offset <? 0) then None
  else Some (take (Z.to_nat limit) (drop (Z.to_nat offset) ordered)).

(** The window a page query cuts out: its LIMIT and OFFSET placeholders are
    the last two parameters. *)
Definition page_window {A} (q : SelectQuery.t) (ordered : list A) : option (list A) :=
  match reverse (SelectQuery.args q) with
  | PyNum (NInt offset) :: PyNum (NInt limit) :: _ => limit_offset limit offset ordered
  | _ => None
  end.

(** ** Session lookup ([accounts.py], lines 206-227) *)

(** Row models of [accounts.py]. *)
Inductive account_model : Type :=
  | Account.

Module AccountQuery.
Record t : Type := mk { model : account_model; sql : string; args : list pyval }.
End AccountQuery.

(** The outcome of a function that starts with an [assert]. *)
Inductive asserted (A : Type) : Type :=
  | Passed (a : A)
  | AssertionError.
Global Arguments Passed {A} a.
Global Arguments AssertionError {A}.

Definition get_account_from_session (sonolus_id session_key session_type : string)
    : asserted AccountQuery.t :=
  if bool_decide (session_type ∈ ["game"; "external"]) then
    Passed (AccountQuery.mk Account (account_from_session_sql session_type)
              [PyStr sonolus_id; PyStr session_key])
  else AssertionError.

(** [data->>'session_key' = $2::text
     AND (data->>'expires')::bigint > EXTRACT(EPOCH FROM NOW()) * 1000] *)
Definition session_is_live (now_ms : Q) (p2 : string) (data : Session) : bool :=
  String.eqb (session_key data) p2
  && (if Qlt_le_dec now_ms (inject_Z (expires data)) then true else false).

(** The statement [account_from_session_sql session_type] against the table:
    the [sonolus_id] of the rows it returns (at most one). *)
Definition run_account_from_session (now_ms : Q) (session_type : string)
    (args : list pyval) (accounts : Accounts) : db_error + list string :=
  match args with
  | [PyStr p1; PyStr p2] =>
      match accounts !! p1 with
      | None => inr []
      | Some s =>
          if existsb (λ row : string * Session, session_is_live now_ms p2 row.2)
               (map_to_list (default ∅ (s !! session_type)))
          then inr [p1] else inr []
      end
  | _ => inl WrongParameters
  end.

(** ** The upsert of [create_account_if_not_exists_and_new_session] *)

(** [upsert_account_sql] on the column the model follows: a new row gets
    [{"game": {}, "external": {}}], an existing row keeps its sessions (only
    [sonolus_username] is updated).  Constraints other than the key
    [sonolus_id] are outside the model. *)
Definition run_upsert_account (args : list pyval) (accounts : Accounts)
    : db_error + Accounts :=
  match args with
  | [PyStr p1; PyNum (NInt _); PyStr _] =>
      match accounts !! p1 with
      | Some _ => inr accounts
      | None => inr (<[p1 := <["game" := ∅]> (<["external" := ∅]> ∅)]> accounts)
      end
  | _ => inl WrongParameters
  end.

(** The two statements of a login, one after the other. *)
Definition run_login `{OrderBy} (now_ms : Q) (queries : ExecutableQuery.t * SelectQuery.t)
    (accounts : Accounts) : db_error + Accounts * list SessionDataRow :=
  match run_upsert_account (ExecutableQuery.args queries.1) accounts with
  | inl e => inl e
  | inr accounts' => run_session_query now_ms (SelectQuery.args queries.2) accounts'
  end.

(** ** Roles ([accounts.py], lines 322-365) *)

Definition set_admin (sonolus_id : string) (admin_status : bool) : ExecutableQuery.t :=
  match admin_status with
  | false => ExecutableQuery.mk set_admin_only_sql [PyBool admin_status; PyStr sonolus_id]
  | true => ExecutableQuery.mk set_admin_and_mod_sql [PyBool admin_status; PyStr sonolus_id]
  end.

Definition set_mod (sonolus_id : string) (mod_status : bool) : ExecutableQuery.t :=
  match mod_status with
  | true => ExecutableQuery.mk set_mod_only_sql [PyBool mod_status; PyStr sonolus_id]
  | false => ExecutableQuery.mk set_mod_and_admin_sql [PyBool mod_status; PyStr sonolus_id]
  end.

(** The columns [admin] and [mod] of an account. *)
Record Roles : Type := {
  admin : bool;
  moderator : bool
}.

(** The four role statements against the table, by [sonolus_id]: which of
    the two columns the SET clause assigns [$1] to, for the row [$2]. *)
Definition run_role_update (q : ExecutableQuery.t) (roles : gmap string Roles)
    : db_error + gmap string Roles :=
  let sql := ExecutableQuery.sql q in
  let sets_admin :=
    String.eqb sql set_admin_only_sql || String.eqb sql set_admin_and_mod_sql
    || String.eqb sql set_mod_and_admin_sql in
  let sets_mod :=
    String.eqb sql set_mod_only_sql || String.eqb sql set_admin_and_mod_sql
    || String.eqb sql set_mod_and_admin_sql in
  match ExecutableQuery.args q with
  | [PyBool p1; PyStr p2] =>
      if sets_admin || sets_mod then
        inr (alter (λ r, {| admin := if sets_admin then p1 else admin r;
                            moderator := if sets_mod then p1 else moderator r |})
               p2 roles)
      else inl WrongParameters
  | _ => inl WrongParameters
  end.

(** ** Vocabulary for further statements about [get_chart_list] *)

(** Which filters a call switches on: the outcome of every test the
    function makes on its filter arguments, in program order. *)
Definition switches (a : ChartListArgs) : list bool :=
  [ truthy (sonolus_id a); truthy (liked_by a); truthy (status a);
    bool_decide (is_Some (staff_pick a)); bool_decide (is_Some (min_rating a));
    bool_decide (is_Some (max_rating a)); truthy (tags a);
    bool_decide (is_Some (min_likes a)); bool_decide (is_Some (max_likes a));
    bool_decide (is_Some (min_comments a)); bool_decide (is_Some (max_comments a));
    truthy (commented_by a); truthy (owned_by a); truthy (sonolus_handle_is a);
    truthy (title_includes a); truthy (description_includes a);
    truthy (artists_includes a); truthy (author_includes a);
    truthy (meta_includes a) ].

(** The states of two runs agree on everything that becomes SQL text. *)
Definition same_text (st st' : State) : Prop :=
  inner_select st = inner_select st'
  ∧ conditions st = conditions st'
  ∧ length (params st) = length (params st').

(** [c] is one of the seventeen predicate fragments, numbered [n]. *)
Definition known_fragment (n : nat) (c : string) : Prop :=
  c ∈ [ status_fragment n; staff_pick_fragment n; min_rating_fragment n;
        max_rating_fragment n; tags_fragment n; min_likes_fragment n;
        max_likes_fragment n; min_comments_fragment n; max_comments_fragment n;
        liked_by_fragment n; owned_by_fragment n; handle_fragment n;
        title_fragment n; description_fragment n; artists_fragment n;
        author_fragment n; meta_fragment n ].

(** Every condition carries a placeholder that a parameter stands behind. *)
Definition placeholders_bound (st : State) : Prop :=
  Forall (λ c, ∃ n, known_fragment n c ∧ (1 ≤ n ≤ length (params st))%nat)
    (conditions st).

(** The values an update builder binds: the arguments that are not [None],
    in the order given. *)
Definition not_None_values (values : list (option pyval)) : list pyval :=
  omap (λ v, v) values.

(** The same call as [busy_args] with other values throughout. *)
Definition busy_args_other_values : ChartListArgs := {|
  page := 7;
  items_per_page := 5;
  min_rating := Some 1;
  max_rating := Some 40;
  status := Some "UNLISTED";
  tags := Some ["a'; DROP TABLE charts; --"; "x"];
  min_likes := None;
  max_likes := Some 99;
  min_comments := None;
  max_comments := None;
  liked_by := Some "someone";
  commented_by := Some "someone else";
  staff_pick := Some true;
  title_includes := Some "' OR 1=1 --";
  description_includes := None;
  artists_includes := None;
  author_includes := None;
  sonolus_handle_is := Some 1;
  sort_by := "published_at";
  sort_order := "asc";
  sonolus_id := Some "viewer";
  meta_includes := Some "%";
  owned_by := Some "x' OR 'a'='a"
|}.

(** The inner SELECT of [st'] is that of [st] with text appended. *)
Definition text_grows (st st' : State) : Prop :=
  ∃ rest, inner_select st' = inner_select st +:+ rest.

(** Every admin is a moderator. *)
Definition admins_are_moderators (roles : gmap string Roles) : Prop :=
  map_Forall (λ _ r, admin r = true → moderator r = true) roles.

(** A table with the one account of [tied_sessions]. *)
Definition tied_accounts : Accounts := <["acc-1" := tied_sessions]> ∅.

(** An admin, a moderator and a plain account. *)
Definition some_roles : gmap string Roles :=
  <["root" := {| admin := true; moderator := true |}]>
    (<["helper" := {| admin := false; moderator := true |}]>
       (<["player" := {| admin := false; moderator := false |}]> ∅)).

(** ** SQL text of the status, schedule and like statements *)

Definition add_like_sql : string :=
  "
            INSERT INTO chart_likes (chart_id, sonolus_id, created_at)
            SELECT $1, $2, CURRENT_TIMESTAMP
            WHERE EXISTS (
                SELECT 1 FROM charts
                WHERE id = $1
                AND (
                    status IN ('UNLISTED', 'PUBLIC')
                    OR (status = 'PRIVATE' AND author = $2)
                )
            )
            ON CONFLICT DO NOTHING;
        ".

Definition remove_like_sql : string :=
  "
            DELETE FROM chart_likes
            WHERE chart_id = $1
            AND sonolus_id = $2
            AND EXISTS (
                SELECT 1 FROM charts
                WHERE id = $1
                AND (
                    status IN ('UNLISTED', 'PUBLIC')
                    OR (status = 'PRIVATE' AND author = $2)
                )
            );
        ".

Definition update_status_by_author_sql : string :=
  "
                WITH updated AS (
                    UPDATE charts
                    SET 
                        status = $1::chart_status, 
                        updated_at = CURRENT_TIMESTAMP,
                        published_at = CASE 
                            WHEN $1::chart_status = 'PUBLIC' AND published_at IS NULL THEN CURRENT_TIMESTAMP
                            ELSE published_at
                        END
                    WHERE id = $2 AND author = $3
                    RETURNING id, published_at, status
                )
                SELECT 
                    charts.*, 
                    chart_author AS chart_design, 
                    (updated.published_at IS DISTINCT FROM charts.published_at) AS is_first_publish,
                    chart_author || '#' || accounts.sonolus_handle AS author_full,
                    accounts.sonolus_handle AS author_handle
                FROM charts
                JOIN updated ON charts.id = updated.id
                JOIN accounts ON charts.author = accounts.sonolus_id;
            ".

Definition update_status_any_author_sql : string :=
  "
                WITH updated AS (
                    UPDATE charts
                    SET 
                        status = $1::chart_status, 
                        updated_at = CURRENT_TIMESTAMP,
                        published_at = CASE 
                            WHEN $1::chart_status = 'PUBLIC' AND published_at IS NULL THEN CURRENT_TIMESTAMP
                            ELSE published_at
                        END
                    WHERE id = $2
                    RETURNING id, published_at, status
                )
                SELECT 
                    charts.*, 
                    chart_author AS chart_design, 
                    (updated.published_at IS DISTINCT FROM charts.published_at) AS is_first_publish,
                    chart_author || '#' || accounts.sonolus_handle AS author_full,
                    accounts.sonolus_handle AS author_handle
                FROM charts
                JOIN updated ON charts.id = updated.id
                JOIN accounts ON charts.author = accounts.sonolus_id;
            ".

Definition update_scheduled_publish_by_author_sql : string :=
  "
                WITH updated AS (
                    UPDATE charts
                    SET 
                        scheduled_publish = CASE
                            WHEN $1::bigint IS NULL THEN NULL
                            ELSE to_timestamp($1::double precision)
                        END,
                        updated_at = CURRENT_TIMESTAMP
                    WHERE id = $2 AND author = $3
                    RETURNING id, scheduled_publish
                )
                SELECT 
                    charts.*, 
                    chart_author AS chart_design, 
                    (updated.scheduled_publish IS DISTINCT FROM charts.scheduled_publish) AS schedule_changed,
                    chart_author || '#' || accounts.sonolus_handle AS author_full,
                    accounts.sonolus_handle AS author_handle
                FROM charts
                JOIN updated ON charts.id = updated.id
                JOIN accounts ON charts.author = accounts.sonolus_id;
            ".

Definition update_scheduled_publish_any_author_sql : string :=
  "
                WITH updated AS (
                    UPDATE charts
                    SET 
                        scheduled_publish = CASE
                            WHEN $1::bigint IS NULL THEN NULL
                            ELSE to_timestamp($1::double precision)
                        END,
                        updated_at = CURRENT_TIMESTAMP
                    WHERE id = $2
                    RETURNING id, scheduled_publish
                )
                SELECT 
                    charts.*, 
                    chart_author AS chart_design, 
                    (updated.scheduled_publish IS DISTINCT FROM charts.scheduled_publish) AS schedule_changed,
                    chart_author || '#' || accounts.sonolus_handle AS author_full,
                    accounts.sonolus_handle AS author_handle
                FROM charts
                JOIN updated ON charts.id = updated.id
                JOIN accounts ON charts.author = accounts.sonolus_id;
            ".

(** ** Chart status, publication and likes ([charts.py], lines 563-756) *)

(** The values of the parameter [status]:
    [Literal["PUBLIC", "UNLISTED", "PRIVATE"]]. *)
Inductive chart_status : Type :=
  | PUBLIC
  | UNLISTED
  | PRIVATE.

Global Instance chart_status_eq_dec : EqDecision chart_status.
Proof. solve_decision. Defined.

Definition chart_status_label (s : chart_status) : string :=
  match s with
  | PUBLIC => "PUBLIC"
  | UNLISTED => "UNLISTED"
  | PRIVATE => "PRIVATE"
  end.

Global Instance to_py_chart_status : ToPy chart_status :=
  λ s, PyStr (chart_status_label s).

Definition update_status (chart_id : string) (status : chart_status)
    (sonolus_id : option string) : SelectQuery.t :=
  if truthy sonolus_id then
    SelectQuery.mk ChartDBResponse update_status_by_author_sql
      [to_py status; PyStr chart_id; to_py sonolus_id]
  else
    SelectQuery.mk ChartDBResponse update_status_any_author_sql
      [to_py status; PyStr chart_id].

Definition update_scheduled_publish (chart_id : string)
    (publish_time_seconds : option Z) (sonolus_id : option string) : SelectQuery.t :=
  if truthy sonolus_id then
    SelectQuery.mk ChartDBResponse update_scheduled_publish_by_author_sql
      [to_py publish_time_seconds; PyStr chart_id; to_py sonolus_id]
  else
    SelectQuery.mk ChartDBResponse update_scheduled_publish_any_author_sql
      [to_py publish_time_seconds; PyStr chart_id].

Definition add_like (chart_id sonolus_id : string) : ExecutableQuery.t :=
  ExecutableQuery.mk add_like_sql [PyStr chart_id; PyStr sonolus_id].

Definition remove_like (chart_id sonolus_id : string) : ExecutableQuery.t :=
  ExecutableQuery.mk remove_like_sql [PyStr chart_id; PyStr sonolus_id].

(** *** The statements against the tables *)

(** The columns of [charts] these statements read or write.  A timestamp is
    its number of microseconds since the epoch; [None] is SQL NULL.  The
    column [updated_at] is not followed. *)
Module Chart.
Record t : Type := mk {
  author : string;
  status : chart_status;
  published_at : option Z;
  scheduled_publish : option Z
}.
End Chart.

(** The table [charts], by [id]. *)
Abbreviation Charts := (gmap string Chart.t).

(** [$1::chart_status]: the labels the code uses; any other text is
    rejected by the cast. *)
Definition cast_chart_status (label : string) : option chart_status :=
  if String.eqb label "PUBLIC" then Some PUBLIC
  else if String.eqb label "UNLISTED" then Some UNLISTED
  else if String.eqb label "PRIVATE" then Some PRIVATE
  else None.

(** The SET clause of [update_status] on one row, [now] being
    CURRENT_TIMESTAMP:
    [status = $1, published_at = CASE WHEN $1 = 'PUBLIC' AND published_at IS
     NULL THEN CURRENT_TIMESTAMP ELSE published_at END]. *)
Definition set_status (now : Z) (p1 : chart_status) (c : Chart.t) : Chart.t :=
  {| Chart.author := Chart.author c;
     Chart.status := p1;
     Chart.published_at :=
       if bool_decide (p1 = PUBLIC) && bool_decide (Chart.published_at c = None)
       then Some now
       else Chart.published_at c;
     Chart.scheduled_publish := Chart.scheduled_publish c |}.

(** [to_timestamp] of a whole number of seconds; the rounding of
    [double precision] beyond 2^53 is outside the model. *)
Definition to_timestamp (seconds : Z) : Z := seconds * 1000000.

(** The SET clause of [update_scheduled_publish] on one row:
    [scheduled_publish = CASE WHEN $1 IS NULL THEN NULL
                              ELSE to_timestamp($1) END]. *)
Definition set_scheduled_publish (p1 : option Z) (c : Chart.t) : Chart.t :=
  {| Chart.author := Chart.author c;
     Chart.status := Chart.status c;
     Chart.published_at := Chart.published_at c;
     Chart.scheduled_publish :=
       match p1 with
       | None => None
       | Some seconds => Some (to_timestamp seconds)
       end |}.

(** A returned row: [charts.*] and the computed flag ([is_first_publish] or
    [schedule_changed]). *)
Record ChartUpdateRow : Type := {
  returned_chart : Chart.t;
  returned_flag : bool
}.

(** [a IS DISTINCT FROM b] *)
Definition is_distinct_from (a b : option Z) : bool := bool_decide (a ≠ b).

(** [WITH updated AS (UPDATE charts SET ... WHERE id = $2 [AND author = $3]
     RETURNING ...) SELECT charts.*, (updated.x IS DISTINCT FROM charts.x)
     FROM charts JOIN updated ON charts.id = updated.id
     JOIN accounts ON charts.author = accounts.sonolus_id].
    The outer SELECT reads [charts] in the snapshot the statement started
    with, so [charts.*] is the row before the UPDATE and [updated.x] the
    value written; a row is returned when the author has an account. *)
Definition run_chart_update (set : Chart.t → Chart.t) (column : Chart.t → option Z)
    (p2 : string) (p3 : option string) (charts : Charts) (accounts : gset string)
    : Charts * list ChartUpdateRow :=
  match charts !! p2 with
  | None => (charts, [])
  | Some c =>
      if match p3 with
         | Some owner => String.eqb (Chart.author c) owner
         | None => true
         end
      then
        (<[p2 := set c]> charts,
         if bool_decide (Chart.author c ∈ accounts)
         then [ {| returned_chart := c;
                   returned_flag := is_distinct_from (column (set c)) (column c) |} ]
         else [])
      else (charts, [])
  end.

(** The two statements of [update_status]. *)
Definition run_update_status (now : Z) (q : SelectQuery.t) (charts : Charts)
    (accounts : gset string) : db_error + Charts * list ChartUpdateRow :=
  let run p1 p2 p3 :=
    match cast_chart_status p1 with
    | Some status =>
        inr (run_chart_update (set_status now status) Chart.published_at p2 p3
               charts accounts)
    | None => inl WrongParameters
    end in
  if String.eqb (SelectQuery.sql q) update_status_by_author_sql then
    match SelectQuery.args q with
    | [PyStr p1; PyStr p2; PyStr p3] => run p1 p2 (Some p3)
    | _ => inl WrongParameters
    end
  else if String.eqb (SelectQuery.sql q) update_status_any_author_sql then
    match SelectQuery.args q with
    | [PyStr p1; PyStr p2] => run p1 p2 None
    | _ => inl WrongParameters
    end
  else inl WrongParameters.

(** [$1::bigint] of a parameter that is an [int] or [None]. *)
Definition cast_bigint (p1 : pyval) : option (option Z) :=
  match p1 with
  | PyNone => Some None
  | PyNum (NInt z) => Some (Some z)
  | _ => None
  end.

(** The two statements of [update_scheduled_publish]. *)
Definition run_update_scheduled_publish (q : SelectQuery.t) (charts : Charts)
    (accounts : gset string) : db_error + Charts * list ChartUpdateRow :=
  let run p1 p2 p3 :=
    match cast_bigint p1 with
    | Some seconds =>
        inr (run_chart_update (set_scheduled_publish seconds) Chart.scheduled_publish
               p2 p3 charts accounts)
    | None => inl WrongParameters
    end in
  if String.eqb (SelectQuery.sql q) update_scheduled_publish_by_author_sql then
    match SelectQuery.args q with
    | [p1; PyStr p2; PyStr p3] => run p1 p2 (Some p3)
    | _ => inl WrongParameters
    end
  else if String.eqb (SelectQuery.sql q) update_scheduled_publish_any_author_sql then
    match SelectQuery.args q with
    | [p1; PyStr p2] => run p1 p2 None
    | _ => inl WrongParameters
    end
  else inl WrongParameters.

(** A call of one of the two builders, with the moment its statement runs. *)
Inductive chart_call : Type :=
  | UpdateStatus (now : Z) (chart_id : string) (status : chart_status)
      (sonolus_id : option string)
  | UpdateScheduledPublish (chart_id : string) (publish_time_seconds : option Z)
      (sonolus_id : option string).

(** The table after a call; a statement that fails changes nothing. *)
Definition after_call (accounts : gset string) (charts : Charts) (call : chart_call)
    : Charts :=
  match
    match call with
    | UpdateStatus now chart_id status sonolus_id =>
        run_update_status now (update_status chart_id status sonolus_id) charts accounts
    | UpdateScheduledPublish chart_id publish_time_seconds sonolus_id =>
        run_update_scheduled_publish
          (update_scheduled_publish chart_id publish_time_seconds sonolus_id)
          charts accounts
    end
  with
  | inr (charts', _) => charts'
  | inl _ => charts
  end.

(** The table after a sequence of calls. *)
Definition after_calls (accounts : gset string) (calls : list chart_call)
    (charts : Charts) : Charts :=
  foldl (after_call accounts) charts calls.

(** A SET clause that keeps the author, and the publish time once there is
    one. *)
Definition keeps_publication (set : Chart.t → Chart.t) : Prop :=
  ∀ c, Chart.author (set c) = Chart.author c
       ∧ ∀ t, Chart.published_at c = Some t → Chart.published_at (set c) = Some t.

(** *** Likes *)

(** A row of [chart_likes]: [(chart_id, sonolus_id)]; [created_at] is not
    followed. *)
Abbreviation Like := (string * string)%type.

(** [ON CONFLICT DO NOTHING] skips the row when a unique constraint of
    [chart_likes] would be violated.  The constraints are declared outside
    this code, so the development is parametric in them. *)
Class LikeConstraints := conflicts : Like → list Like → bool.

(** One like per chart and account, for evaluating the model. *)
Definition one_like_per_account : LikeConstraints :=
  λ like likes, bool_decide (like ∈ likes).

(** [status IN ('UNLISTED', 'PUBLIC') OR (status = 'PRIVATE' AND author = $2)] *)
Definition open_to (p2 : string) (c : Chart.t) : bool :=
  bool_decide (Chart.status c ∈ [UNLISTED; PUBLIC])
  || (bool_decide (Chart.status c = PRIVATE) && String.eqb (Chart.author c) p2).

(** [EXISTS (SELECT 1 FROM charts WHERE id = $1 AND (...))] *)
Definition exists_open_chart (p1 p2 : string) (charts : Charts) : bool :=
  match charts !! p1 with
  | Some c => open_to p2 c
  | None => false
  end.

(** The statement of [add_like].  Constraints that raise instead of
    conflicting (foreign keys) are outside the model. *)
Definition run_add_like `{LikeConstraints} (q : ExecutableQuery.t) (charts : Charts)
    (likes : list Like) : db_error + list Like :=
  match ExecutableQuery.args q with
  | [PyStr p1; PyStr p2] =>
      if exists_open_chart p1 p2 charts then
        if conflicts (p1, p2) likes then inr likes else inr (likes ++ [(p1, p2)])
      else inr likes
  | _ => inl WrongParameters
  end.

(** The statement of [remove_like]. *)
Definition run_remove_like (q : ExecutableQuery.t) (charts : Charts)
    (likes : list Like) : db_error + list Like :=
  match ExecutableQuery.args q with
  | [PyStr p1; PyStr p2] =>
      if exists_open_chart p1 p2 charts then
        inr (List.filter (λ like, negb (bool_decide (like = (p1, p2)))) likes)
      else inr likes
  | _ => inl WrongParameters
  end.

(** An unlisted chart never published and a private one published once. *)
Definition chart_c1 : Chart.t :=
  {| Chart.author := "ann"; Chart.status := UNLISTED;
     Chart.published_at := None; Chart.scheduled_publish := None |}.

Definition chart_c2 : Chart.t :=
  {| Chart.author := "bob"; Chart.status := PRIVATE;
     Chart.published_at := Some 1000; Chart.scheduled_publish := Some 5000 |}.

Definition some_charts : Charts := <["c-1" := chart_c1]> (<["c-2" := chart_c2]> ∅).

Definition some_accounts : gset string := {["ann"; "bob"]}.

Definition some_calls : list chart_call :=
  [ UpdateStatus 2000 "c-2" PUBLIC (Some "bob");
    UpdateScheduledPublish "c-2" None None;
    UpdateStatus 3000 "c-2" PRIVATE None;
    UpdateStatus 4000 "c-2" PUBLIC (Some "") ].

Definition some_likes : list Like := [("c-2", "ann"); ("c-1", "bob")].

(** * Properties *)

(** ** Strings *)

Lemma append_empty_r (s : string) : s +:+ "" = s.
Proof.
  induction s as [|c s IH]; [done|].
  change (String c (s +:+ "") = String c s). by rewrite IH.
Qed.

Lemma append_assoc (s t u : string) : (s +:+ t) +:+ u = s +:+ t +:+ u.
Proof.
  induction s as [|c s IH]; [done|].
  change (String c ((s +:+ t) +:+ u) = String c (s +:+ t +:+ u)). by rewrite IH.
Qed.

Lemma prefix_append (s t : string) : String.prefix s (s +:+ t) = true.
Proof.
  induction s as [|c s IH]; [by destruct t|].
  change (String c s +:+ t) with (String c (s +:+ t)). simpl.
  by destruct (Ascii.ascii_dec c c).
Qed.

Lemma truthy_snoc {A} (l : list A) (x : A) : truthy (l ++ [x]) = true.
Proof. by destruct l. Qed.

Lemma truthy_option_falsy {A} `{Truthy A} (o : option A) (x : A) :
  o = None ∨ o = Some x → truthy x = false → truthy o = false.
Proof. by intros [-> | ->]. Qed.

(** ** [get_chart_list]: the statements only ever append *)

Section GetChartListFacts.
Context `{StrLower}.
Implicit Types (a : ChartListArgs) (st : State).

Global Instance extends_preorder : PreOrder extends.
Proof.
  split.
  - intros st. by split.
  - intros st1 st2 st3 [? ?] [? ?]. split; by etrans.
Qed.

Lemma extends_emit st v frag :
  extends st (conditions_append frag (params_append v st)).
Proof. split; simpl; by apply prefix_app_r. Qed.

Lemma extends_join st v text :
  extends st (inner_select_add text (params_append v st)).
Proof. split; simpl; [done | by apply prefix_app_r]. Qed.

Lemma extends_if_truthy {A} `{Truthy A} (o : option A) body st :
  (∀ x st, extends st (body x st)) → extends st (if_truthy o body st).
Proof. intros Hb. unfold if_truthy. repeat case_match; done. Qed.

Lemma extends_if_not_None {A} (o : option A) body st :
  (∀ x st, extends st (body x st)) → extends st (if_not_None o body st).
Proof. intros Hb. unfold if_not_None. case_match; done. Qed.

Lemma filter_statements_extend a :
  Forall (λ stmt, ∀ st, extends st (stmt st)) (filter_statements a).
Proof.
  unfold filter_statements.
  repeat apply Forall_cons_2; try apply Forall_nil_2; intros st;
    first
      [ apply extends_if_truthy; intros; first [apply extends_emit | apply extends_join]
      | apply extends_if_not_None; intros; apply extends_emit
      | unfold stmt_owned_by_or_handle; repeat case_match;
        first [done | apply extends_emit] ].
Qed.

Lemma run_app stmts1 stmts2 st :
  run (stmts1 ++ stmts2) st = run stmts2 (run stmts1 st).
Proof. apply foldl_app. Qed.

Lemma run_preserves (P : State → Prop) stmts st :
  Forall (λ stmt, ∀ st, P st → P (stmt st)) stmts → P st → P (run stmts st).
Proof.
  intros Hall. revert st.
  induction Hall as [|stmt stmts Hstmt _ IH]; intros st Hst; [done|].
  apply IH, Hstmt, Hst.
Qed.

Lemma run_extends stmts st :
  Forall (λ stmt, ∀ st, extends st (stmt st)) stmts → extends st (run stmts st).
Proof.
  intros Hall.
  apply (run_preserves (extends st)); [|done].
  eapply Forall_impl; [exact Hall|]. intros stmt Hstmt st' Hst'. by etrans.
Qed.


Lemma conditions_compiled a : conditions (compiled a) = conditions (compiled_filters a).
Proof. unfold compiled, stmt_where. by case_match. Qed.

Lemma params_compiled a : params (compiled a) = params (compiled_filters a).
Proof. unfold compiled, stmt_where. by case_match. Qed.

Lemma inner_select_compiled a :
  inner_select (compiled a)
  = inner_select (compiled_filters a)
    +:+ (if truthy (conditions (compiled_filters a))
         then " WHERE " +:+ join " AND " (conditions (compiled_filters a))
         else "").
Proof.
  unfold compiled, stmt_where.
  destruct (truthy (conditions (compiled_filters a))); simpl; [done|].
  by rewrite append_empty_r.
Qed.


(** ** [get_chart_list]: conditions that are never appended *)

Lemma no_condition_emit p st v frag :
  (∀ n, p (frag n) = false) →
  no_condition p st → no_condition p (conditions_append frag (params_append v st)).
Proof.
  intros Hfrag Hst. unfold no_condition in *; simpl.
  apply Forall_app; split; [done|]. by apply Forall_singleton.
Qed.

Lemma no_condition_join p st v text :
  no_condition p st → no_condition p (inner_select_add text (params_append v st)).
Proof. done. Qed.

Lemma no_condition_if_truthy {A} `{Truthy A} p (o : option A) body st :
  (∀ x st, no_condition p st → no_condition p (body x st)) →
  no_condition p st → no_condition p (if_truthy o body st).
Proof. intros Hb Hst. unfold if_truthy. repeat case_match; auto. Qed.

Lemma no_condition_if_not_None {A} p (o : option A) body st :
  (∀ x st, no_condition p st → no_condition p (body x st)) →
  no_condition p st → no_condition p (if_not_None o body st).
Proof. intros Hb Hst. unfold if_not_None. case_match; auto. Qed.

Lemma no_condition_skip {A} `{Truthy A} p (o : option A) body st :
  truthy o = false → no_condition p st → no_condition p (if_truthy o body st).
Proof.
  intros Ho Hst. unfold if_truthy. destruct o as [x|]; [|done].
  change (truthy x = false) in Ho. by rewrite Ho.
Qed.

Lemma no_condition_not_elem p st c :
  no_condition p st → p c = true → c ∉ conditions st.
Proof.
  intros Hst Hc Hin. unfold no_condition in Hst.
  rewrite Forall_forall in Hst. specialize (Hst c Hin). congruence.
Qed.

Lemma no_condition_compiled_by p a :
  Forall (λ stmt, ∀ st, no_condition p st → no_condition p (stmt st))
    (filter_statements a) →
  no_condition p (compiled a).
Proof.
  intros Hall. unfold no_condition. rewrite conditions_compiled.
  unfold compiled_filters.
  apply (run_preserves (no_condition p)); [done | by apply Forall_nil_2].
Qed.

(** A statement keeps [no_condition p]: either the hypotheses at hand skip
    it, or its fragment is told apart from [p] by its first characters. *)
Ltac keeps_no_condition :=
  intros ? ?;
  first
    [ apply no_condition_skip; [assumption | assumption]
    | apply no_condition_if_truthy; [intros ? ? ?|assumption];
      first [ apply no_condition_emit; [intros ?; reflexivity | assumption]
            | apply no_condition_join; assumption ]
    | apply no_condition_if_not_None; [intros ? ? ?|assumption];
      apply no_condition_emit; [intros ?; reflexivity | assumption] ].

(** Lines 180-185 under the hypotheses at hand. *)
Ltac owner_or_handle_keeps :=
  intros ? ?; unfold stmt_owned_by_or_handle;
  repeat match goal with
         | Heq : truthy _ = _ |- _ => rewrite Heq
         end;
  repeat case_match; try assumption;
  (apply no_condition_emit; [intros ?; reflexivity | assumption]).

Ltac no_condition_in_compiled :=
  apply no_condition_compiled_by; unfold filter_statements;
  repeat apply Forall_cons_2; try apply Forall_nil_2;
  first [ keeps_no_condition | owner_or_handle_keeps ].

(** ** [get_chart_list]: the claims *)



Lemma filter_statements_without_meta a :
  filter_statements (without_meta_includes a)
  = [ stmt_sonolus_id a; stmt_status a; stmt_staff_pick a; stmt_min_rating a;
      stmt_max_rating a; stmt_tags a; stmt_min_likes a; stmt_max_likes a;
      stmt_min_comments a; stmt_max_comments a; stmt_liked_by a; stmt_commented_by a;
      stmt_owned_by_or_handle a; stmt_title_includes a; stmt_description_includes a;
      stmt_artists_includes a; stmt_author_includes a ] ++ [λ st, st].
Proof. reflexivity. Qed.

Lemma filter_statements_with_meta a :
  filter_statements a
  = [ stmt_sonolus_id a; stmt_status a; stmt_staff_pick a; stmt_min_rating a;
      stmt_max_rating a; stmt_tags a; stmt_min_likes a; stmt_max_likes a;
      stmt_min_comments a; stmt_max_comments a; stmt_liked_by a; stmt_commented_by a;
      stmt_owned_by_or_handle a; stmt_title_includes a; stmt_description_includes a;
      stmt_artists_includes a; stmt_author_includes a ] ++ [stmt_meta_includes a].
Proof. reflexivity. Qed.

Lemma initial_state_without_meta a :
  initial_state (without_meta_includes a) = initial_state a.
Proof. reflexivity. Qed.

Lemma compiled_filters_without_meta a :
  compiled_filters a
  = stmt_meta_includes a (compiled_filters (without_meta_includes a)).
Proof.
  unfold compiled_filters.
  rewrite filter_statements_without_meta, initial_state_without_meta.
  rewrite (filter_statements_with_meta a).
  rewrite !run_app. reflexivity.
Qed.

Lemma meta_fragment_sites (n : nat) :
  let placeholder := "$" +:+ pretty n in
  meta_fragment n
  = "(" +:+ join " OR "
              [ "LOWER(c.title) LIKE " +:+ placeholder;
                "LOWER(c.description) LIKE " +:+ placeholder;
                "LOWER(c.chart_author || '#' || a.sonolus_handle) LIKE " +:+ placeholder;
                "LOWER(c.artists) LIKE " +:+ placeholder ]
        +:+ ")".
Proof.
  intros placeholder. unfold placeholder, meta_fragment, join.
  simpl String.concat. rewrite !append_assoc. reflexivity.
Qed.

(** C6. A present (non-empty) [meta_includes] adds, to what the same call
    without it compiles, exactly one parameter, the lower-cased text between
    two [%], and exactly one fragment: four LIKE sites on title, description,
    author-full and artists joined by OR, each with the placeholder of that
    one parameter. *)
Theorem meta_filter_binds_one_parameter a (v : string) :
  meta_includes a = Some v → truthy v = true →
  let before := compiled (without_meta_includes a) in
  let st := compiled a in
  let placeholder := "$" +:+ pretty (length (params st)) in
  params st = params before ++ [PyStr ("%" +:+ str_lower v +:+ "%")] ∧
  conditions st = conditions before ++ [meta_fragment (length (params st))] ∧
  meta_fragment (length (params st))
  = "(" +:+ join " OR "
              [ "LOWER(c.title) LIKE " +:+ placeholder;
                "LOWER(c.description) LIKE " +:+ placeholder;
                "LOWER(c.chart_author || '#' || a.sonolus_handle) LIKE " +:+ placeholder;
                "LOWER(c.artists) LIKE " +:+ placeholder ]
        +:+ ")".
Proof.
  intros Hmeta Hv before st placeholder.
  assert (compiled_filters a
          = conditions_append meta_fragment
              (params_append (PyStr (like_pattern v))
                 (compiled_filters (without_meta_includes a)))) as Hlast.
  { rewrite compiled_filters_without_meta.
    unfold stmt_meta_includes, if_truthy. by rewrite Hmeta, Hv. }
  split; [|split].
  - unfold st, before. by rewrite !params_compiled, Hlast.
  - unfold st, before. by rewrite !params_compiled, !conditions_compiled, Hlast.
  - apply meta_fragment_sites.
Qed.



(** C10. A falsy filter value is treated like an absent one: with [status]
    [None] or the empty string no status fragment is among the conditions (the
    WHERE clause is built from the conditions alone, so it does not constrain
    the status); with [sonolus_handle_is] 0 no handle fragment; with an empty
    tag list no tags fragment; with an empty substring filter no LIKE
    fragment of that filter. *)
Theorem falsy_filter_values_emit_no_predicate a :
  (status a = None ∨ status a = Some "" →
     ∀ n, status_fragment n ∉ conditions (compiled a)) ∧
  (sonolus_handle_is a = None ∨ sonolus_handle_is a = Some 0 →
     ∀ n, handle_fragment n ∉ conditions (compiled a)) ∧
  (tags a = None ∨ tags a = Some [] →
     ∀ n, tags_fragment n ∉ conditions (compiled a)) ∧
  (title_includes a = None ∨ title_includes a = Some "" →
     ∀ n, title_fragment n ∉ conditions (compiled a)) ∧
  (description_includes a = None ∨ description_includes a = Some "" →
     ∀ n, description_fragment n ∉ conditions (compiled a)) ∧
  (artists_includes a = None ∨ artists_includes a = Some "" →
     ∀ n, artists_fragment n ∉ conditions (compiled a)) ∧
  (author_includes a = None ∨ author_includes a = Some "" →
     ∀ n, author_fragment n ∉ conditions (compiled a)) ∧
  (meta_includes a = None ∨ meta_includes a = Some "" →
     ∀ n, meta_fragment n ∉ conditions (compiled a)).
Proof.
  repeat split; intros Hfalsy n;
    apply truthy_option_falsy in Hfalsy; try reflexivity.
  - apply (no_condition_not_elem (String.prefix "c.status = $"));
      [|apply prefix_append].
    no_condition_in_compiled.
  - apply (no_condition_not_elem (String.prefix "a.sonolus_handle = $"));
      [|apply prefix_append].
    no_condition_in_compiled.
  - apply (no_condition_not_elem (String.prefix "c.tags @> $"));
      [|apply prefix_append].
    no_condition_in_compiled.
  - apply (no_condition_not_elem (String.prefix "LOWER(c.title) LIKE $"));
      [|apply prefix_append].
    no_condition_in_compiled.
  - apply (no_condition_not_elem (String.prefix "LOWER(c.description) LIKE $"));
      [|apply prefix_append].
    no_condition_in_compiled.
  - apply (no_condition_not_elem (String.prefix "LOWER(c.artists) LIKE $"));
      [|apply prefix_append].
    no_condition_in_compiled.
  - apply (no_condition_not_elem
             (String.prefix "LOWER(c.chart_author || '#' || a.sonolus_handle) LIKE $"));
      [|apply prefix_append].
    no_condition_in_compiled.
  - apply (no_condition_not_elem (String.prefix "(LOWER(c.title) LIKE "));
      [|apply prefix_append].
    no_condition_in_compiled.
Qed.

End GetChartListFacts.

(** *** The claims at concrete calls *)


(** C6 at [busy_args]: the meta substring [Xy] adds the one parameter [%xy%]. *)
Lemma meta_filter_at_busy_args :
  params (@compiled ascii_str_lower busy_args)
  = params (@compiled ascii_str_lower (without_meta_includes busy_args))
      ++ [PyStr "%xy%"].
Proof.
  apply (@meta_filter_binds_one_parameter ascii_str_lower busy_args "Xy");
    reflexivity.
Defined.


(** C10 at [falsy_args]. *)
Lemma falsy_values_at_falsy_args :
  (∀ n, status_fragment n ∉ conditions (@compiled ascii_str_lower falsy_args)) ∧
  (∀ n, handle_fragment n ∉ conditions (@compiled ascii_str_lower falsy_args)) ∧
  (∀ n, tags_fragment n ∉ conditions (@compiled ascii_str_lower falsy_args)) ∧
  (∀ n, meta_fragment n ∉ conditions (@compiled ascii_str_lower falsy_args)).
Proof.
  destruct (@falsy_filter_values_emit_no_predicate ascii_str_lower falsy_args)
    as (Hstatus & Hhandle & Htags & _ & _ & _ & _ & Hmeta).
  split; [apply Hstatus; right; reflexivity|].
  split; [apply Hhandle; right; reflexivity|].
  split; [apply Htags; right; reflexivity|].
  apply Hmeta; right; reflexivity.
Defined.

Example default_call_filters_public_charts :
  let queries := @get_chart_list ascii_str_lower (default_args 2 10) in
  SelectQuery.args queries.1 = [PyStr "PUBLIC"] ∧
  SelectQuery.args queries.2 = [PyStr "PUBLIC"; PyInt 10; PyInt 20] ∧
  conditions (@compiled ascii_str_lower (default_args 2 10)) = [status_fragment 1].
Proof. by vm_compute. Qed.

Example falsy_args_have_no_where_clause :
  conditions (@compiled ascii_str_lower falsy_args) = [] ∧
  params (@compiled ascii_str_lower falsy_args) = [].
Proof. by vm_compute. Qed.

(** ** The mutations *)

(** C4. With the confirmation flag false, [delete_chart], [delete_account]
    and [update_file_hash] raise their not-confirmed [ValueError] and return
    no query; with the flag true that error is not raised (the two deletes
    always return a query). *)
Theorem confirmation_flag_gates_destructive_operations :
  (∀ chart_id sonolus_id,
      delete_chart chart_id sonolus_id false
      = Raise (ValueError delete_chart_not_confirmed)) ∧
  (∀ sonolus_id,
      delete_account sonolus_id false
      = Raise (ValueError delete_account_not_confirmed)) ∧
  (∀ chart_id jacket v1 v3 music chart preview background none_preview none_background,
      update_file_hash chart_id jacket v1 v3 music chart preview background
        false none_preview none_background
      = Raise (ValueError file_hash_not_confirmed)) ∧
  (∀ chart_id sonolus_id, ∃ q, delete_chart chart_id sonolus_id true = Return q) ∧
  (∀ sonolus_id, ∃ q, delete_account sonolus_id true = Return q) ∧
  (∀ chart_id jacket v1 v3 music chart preview background none_preview none_background,
      update_file_hash chart_id jacket v1 v3 music chart preview background
        true none_preview none_background
      ≠ Raise (ValueError file_hash_not_confirmed)).
Proof.
  repeat split; intros.
  - unfold delete_chart; simpl. destruct (truthy _); eauto.
  - unfold delete_account; simpl; eauto.
  - unfold update_file_hash; simpl.
    repeat case_match; discriminate.
Qed.


Lemma update_metadata_without_fields_is_rejected (chart_id : string) :
  update_metadata chart_id None None None None None None false
  = Raise (ValueError update_metadata_no_field).
Proof. reflexivity. Qed.

(** The test [if not set_fields] of [update_file_hash] comes after
    [updated_at = CURRENT_TIMESTAMP] has been appended: its error is never
    raised. *)
Lemma update_file_hash_never_reports_no_field chart_id jacket v1 v3 music chart
    preview background confirm none_preview none_background :
  update_file_hash chart_id jacket v1 v3 music chart preview background
    confirm none_preview none_background
  ≠ Raise (ValueError file_hash_no_field).
Proof.
  unfold update_file_hash.
  destruct confirm; simpl negb; cbv iota; [|discriminate].
  destruct (truthy jacket && negb (truthy v1 && truthy v3)); [discriminate|].
  cbv zeta. unfold set_fields_append at 1 2. simpl set_fields.
  by rewrite truthy_snoc.
Qed.

(** C3, at the call [update_file_hash(chart_id, confirm_change=True)]: no
    updatable field is present and the function returns a query, an UPDATE
    that sets only [updated_at], where the claim asks for a validation
    error. *)
Theorem update_file_hash_without_fields_is_accepted (chart_id : string) :
  update_file_hash chart_id None None None None None None None true false false
  = Return (ExecutableQuery.mk
              (update_file_hash_text "updated_at = CURRENT_TIMESTAMP" 1)
              [PyStr chart_id]).
Proof. reflexivity. Qed.

(** ** The outer queries *)

(** C2, at [sort_by = "published_at"] over a CTE result of one row that was
    never published: the page query carries the not-null test and selects
    nothing, the count query has no such test and counts the row. *)
Theorem published_at_sort_counts_rows_the_page_query_drops :
  let chart_data := [ {| row_id := "chart-1"; row_published_at := None |} ] in
  filter_published_at_null (sort_column "published_at")
  = "AND published_at IS NOT NULL" ∧
  length (counted_rows chart_data) = 1%nat ∧
  page_rows "published_at" chart_data = [].
Proof. repeat split. Qed.

(** For every sort column but [published_at] the outer filter is empty and
    both queries see the same rows. *)
Lemma other_sorts_count_the_page_rows (sort_by : string) chart_data :
  sort_column sort_by ≠ "published_at" →
  page_rows sort_by chart_data = counted_rows chart_data.
Proof.
  intros Hne. unfold page_rows, counted_rows, filter_published_at_null.
  destruct (String.eqb_spec (sort_column sort_by) "published_at") as [?|_]; [done|].
  induction chart_data as [|r rows IH]; [done|]. simpl. by rewrite IH.
Qed.

(** The count query's text does not depend on the sort column at all. *)
Lemma count_query_ignores_sort `{StrLower} (a : ChartListArgs) :
  SelectQuery.sql (get_chart_list a).1 = count_query_text (inner_select (compiled a)).
Proof. reflexivity. Qed.

(** ** The decaying score *)

Section DecayingScore.
Local Open Scope R_scope.






End DecayingScore.

(** ** The session allocator *)

Global Instance by_expires_total : Total by_expires.
Proof. intros x y. unfold by_expires. lia. Qed.

Global Instance by_expires_trans : Transitive by_expires.
Proof. intros x y z. unfold by_expires. lia. Qed.

Lemma insert_row_perm x rows : insert_row x rows ≡ₚ x :: rows.
Proof.
  induction rows as [|y rows IH]; [done|]. simpl. case_bool_decide; [done|].
  rewrite IH. apply Permutation_swap.
Qed.

Lemma insert_row_sorted x rows :
  Sorted by_expires rows → Sorted by_expires (insert_row x rows).
Proof.
  induction 1 as [|y rows Hs IH Hhd]; simpl; [by repeat constructor|].
  case_bool_decide as Hxy.
  - by repeat constructor.
  - constructor; [done|].
    assert (by_expires y x) as Hyx by (unfold by_expires; lia).
    destruct Hhd as [|z rows' Hyz]; simpl; [by constructor|].
    case_bool_decide; by constructor.
Qed.

Lemma insertion_sort_rows_perm rows : insertion_sort_rows rows ≡ₚ rows.
Proof.
  induction rows as [|x rows IH]; [done|].
  simpl. by rewrite insert_row_perm, IH.
Qed.

Lemma insertion_sort_rows_sorted rows : Sorted by_expires (insertion_sort_rows rows).
Proof.
  induction rows as [|x rows IH]; [constructor|]. by apply insert_row_sorted.
Qed.

(** Both procedures meet what ORDER BY promises. *)
Definition insertion_sort_engine : OrderBy :=
  {| order_by_expires := insertion_sort_rows;
     order_by_expires_perm := insertion_sort_rows_perm;
     order_by_expires_sorted := insertion_sort_rows_sorted |}.

Definition merge_sort_engine : OrderBy :=
  {| order_by_expires := merge_sort_rows;
     order_by_expires_perm := merge_sort_Permutation by_expires;
     order_by_expires_sorted := Sorted_merge_sort by_expires |}.

Section Allocator.
Context `{OrderBy}.

Lemma order_by_head_least rows k v :
  head (order_by_expires rows) = Some (k, v) →
  (k, v) ∈ rows ∧ ∀ k' v', (k', v') ∈ rows → expires v ≤ expires v'.
Proof.
  intros Hhead.
  pose proof (order_by_expires_perm rows) as Hperm.
  pose proof (order_by_expires_sorted rows) as Hsorted.
  destruct (order_by_expires rows) as [|x sorted]; simplify_eq/=.
  split; [rewrite <-Hperm; set_solver|].
  intros k' v' Hin. rewrite <-Hperm in Hin.
  apply Sorted_StronglySorted in Hsorted; [|apply by_expires_trans].
  apply StronglySorted_inv in Hsorted as [_ Hall].
  apply elem_of_cons in Hin as [[= -> ->]|Hin]; [done|].
  rewrite Forall_forall in Hall. apply (Hall _ Hin).
Qed.

Lemma slot_to_use_chooses now_ms (s : Sessions) session_type (slots : Slots) :
  s !! session_type = Some slots →
  ∃ slot, slot_to_use now_ms s session_type = Some slot
          ∧ first_free_or_least_expiry now_ms slots slot.
Proof.
  intros Hs. unfold slot_to_use, jsonb_extract_path, jsonb_each.
  rewrite Hs. simpl.
  destruct (null_or_expired now_ms (slots !! "1")) eqn:H1;
    [exists "1"; split; [done|]; by left|].
  destruct (null_or_expired now_ms (slots !! "2")) eqn:H2;
    [exists "2"; split; [done|]; right; by left|].
  destruct (null_or_expired now_ms (slots !! "3")) eqn:H3;
    [exists "3"; split; [done|]; right; right; by left|].
  destruct (head (order_by_expires (map_to_list slots))) as [[k v]|] eqn:Hhead.
  - apply order_by_head_least in Hhead as [Hin Hleast].
    exists k. split; [done|]. do 3 right. repeat split; [done..|].
    exists v. split; [by apply elem_of_map_to_list|].
    intros k' v' Hk'. apply (Hleast k'). by apply elem_of_map_to_list.
  - exfalso. apply head_None in Hhead.
    pose proof (order_by_expires_perm (map_to_list slots)) as Hperm.
    rewrite Hhead in Hperm. apply Permutation_nil in Hperm.
    apply map_to_list_empty_iff in Hperm. subst slots.
    by rewrite lookup_empty in H1.
Qed.


(** When the three slots are all there and no two of them expire at the same
    millisecond, every engine takes the slot the specification names. *)
Lemma without_a_tie_the_lowest_index_rule_is_met now_ms (s : Sessions) session_type
    (slots : Slots) (v1 v2 v3 : Session) :
  s !! session_type = Some slots →
  slots = <["1" := v1]> (<["2" := v2]> (<["3" := v3]> ∅)) →
  expires v1 ≠ expires v2 → expires v1 ≠ expires v3 → expires v2 ≠ expires v3 →
  slot_to_use now_ms s session_type = spec_slot_to_use now_ms slots.
Proof.
  intros Hs Hslots H12 H13 H23.
  destruct (slot_to_use_chooses now_ms s session_type slots Hs)
    as (slot & -> & Hchosen).
  assert (slots !! "1" = Some v1) as L1
    by (subst slots; apply lookup_insert_eq).
  assert (slots !! "2" = Some v2) as L2
    by (subst slots; rewrite lookup_insert_ne by done; apply lookup_insert_eq).
  assert (slots !! "3" = Some v3) as L3
    by (subst slots; rewrite !lookup_insert_ne by done; apply lookup_insert_eq).
  unfold spec_slot_to_use. simpl List.find.
  destruct Hchosen
    as [[-> E1]|[(-> & E1 & E2)|[(-> & E1 & E2 & E3)|(E1 & E2 & E3 & v & Hv & Hleast)]]].
  - by rewrite E1.
  - by rewrite E1, E2.
  - by rewrite E1, E2, E3.
  - rewrite E1, E2, E3.
    pose proof (Hleast _ _ L1) as M1. pose proof (Hleast _ _ L2) as M2.
    pose proof (Hleast _ _ L3) as M3.
    assert (slot = "1" ∧ v = v1 ∨ slot = "2" ∧ v = v2 ∨ slot = "3" ∧ v = v3) as Hslot.
    { clear -Hv Hslots. subst slots.
      apply lookup_insert_Some in Hv as [[<- <-]|[_ Hv]]; [by left|].
      apply lookup_insert_Some in Hv as [[<- <-]|[_ Hv]]; [right; by left|].
      apply lookup_insert_Some in Hv as [[<- <-]|[_ Hv]]; [right; by right|].
      by rewrite lookup_empty in Hv. }
    unfold least_expiry_lowest_index. simpl foldl.
    destruct Hslot as [[-> ->] | [[-> ->] | [-> ->]]];
      repeat first [rewrite L1 | rewrite L2 | rewrite L3 | case_bool_decide];
      first [done | lia].
Qed.

End Allocator.


(** Which of the tied slots is taken is decided by the sorting procedure. *)
Lemma tie_is_broken_by_the_sort_procedure :
  @slot_to_use insertion_sort_engine 50%Q tied_sessions "game" = Some "1" ∧
  @slot_to_use merge_sort_engine 50%Q tied_sessions "game" = Some "2" ∧
  spec_slot_to_use 50%Q tied_slots = Some "1".
Proof. by vm_compute. Qed.

(** The examples of the specification, under either procedure. *)
Example three_active_slots_evict_the_least_expiry :
  let slots : Slots :=
    <["1" := {| session_key := "k1"; expires := 100 |}]>
      (<["2" := {| session_key := "k2"; expires := 300 |}]>
         (<["3" := {| session_key := "k3"; expires := 200 |}]> ∅)) in
  let s : Sessions := <["game" := slots]> ∅ in
  @slot_to_use insertion_sort_engine 50%Q s "game" = Some "1" ∧
  @slot_to_use merge_sort_engine 50%Q s "game" = Some "1" ∧
  spec_slot_to_use 50%Q slots = Some "1".
Proof. by vm_compute. Qed.

Example expired_slot_is_taken_before_an_empty_one :
  let slots : Slots :=
    <["1" := {| session_key := "k1"; expires := 100 |}]>
      (<["2" := {| session_key := "k2"; expires := 30 |}]> ∅) in
  let s : Sessions := <["game" := slots]> ∅ in
  @slot_to_use merge_sort_engine 50%Q s "game" = Some "2" ∧
  spec_slot_to_use 50%Q slots = Some "2".
Proof. by vm_compute. Qed.


(** * Further properties *)

(** ** [get_chart_list] *)

Section MoreGetChartListFacts.
Context `{StrLower}.
Implicit Types (a b : ChartListArgs) (st : State).

(** *** The text does not depend on the values *)

Lemma same_text_emit st st' v v' frag :
  same_text st st' →
  same_text (conditions_append frag (params_append v st))
    (conditions_append frag (params_append v' st')).
Proof.
  intros (Hi & Hc & Hp). repeat split; simpl; [done| |].
  - by rewrite Hc, !length_app, Hp.
  - by rewrite !length_app, Hp.
Qed.

Lemma same_text_join st st' v v' text :
  same_text st st' →
  same_text (inner_select_add text (params_append v st))
    (inner_select_add text (params_append v' st')).
Proof.
  intros (Hi & Hc & Hp). repeat split; simpl; [|done|].
  - by rewrite Hi, !length_app, Hp.
  - by rewrite !length_app, Hp.
Qed.

Lemma same_text_if_truthy {A} `{Truthy A} (o o' : option A) body body' st st' :
  truthy o = truthy o' →
  (∀ x y st st', same_text st st' → same_text (body x st) (body' y st')) →
  same_text st st' → same_text (if_truthy o body st) (if_truthy o' body' st').
Proof.
  intros Ho Hb Hst. unfold if_truthy.
  destruct o as [x|], o' as [y|]; simpl in Ho.
  - change (truthy x = truthy y) in Ho. rewrite Ho. destruct (truthy y); auto.
  - change (truthy x = false) in Ho. by rewrite Ho.
  - change (false = truthy y) in Ho. by rewrite <-Ho.
  - done.
Qed.

Lemma same_text_if_not_None {A} (o o' : option A) body body' st st' :
  bool_decide (is_Some o) = bool_decide (is_Some o') →
  (∀ x y st st', same_text st st' → same_text (body x st) (body' y st')) →
  same_text st st' → same_text (if_not_None o body st) (if_not_None o' body' st').
Proof.
  intros Ho Hb Hst. unfold if_not_None.
  destruct o as [x|], o' as [y|]; auto.
  - rewrite bool_decide_eq_true_2, bool_decide_eq_false_2 in Ho by (by inversion 1 || eauto).
    done.
  - rewrite bool_decide_eq_false_2, bool_decide_eq_true_2 in Ho by (by inversion 1 || eauto).
    done.
Qed.

Lemma run_same_text stmts stmts' st st' :
  Forall2 (λ f g, ∀ st st', same_text st st' → same_text (f st) (g st')) stmts stmts' →
  same_text st st' → same_text (run stmts st) (run stmts' st').
Proof.
  intros Hall. revert st st'.
  induction Hall as [|f g stmts stmts' Hfg _ IH]; intros st st' Hst; [done|].
  apply IH, Hfg, Hst.
Qed.

Lemma same_switches_same_text a b :
  switches a = switches b → same_text (compiled a) (compiled b).
Proof.
  intros Hsw. unfold switches in Hsw. simplify_list_eq.
  assert (same_text (compiled_filters a) (compiled_filters b)) as (Hi & Hc & Hp).
  { unfold compiled_filters. apply run_same_text.
    - unfold filter_statements.
      repeat apply Forall2_cons_2; try apply Forall2_nil_2; intros st st' Hst;
        first
          [ apply same_text_if_truthy; [assumption| |assumption];
            intros; first [by apply same_text_emit | by apply same_text_join]
          | apply same_text_if_not_None; [assumption| |assumption];
            intros; by apply same_text_emit
          | unfold stmt_owned_by_or_handle;
            repeat match goal with Heq : truthy _ = truthy _ |- _ => rewrite Heq; clear Heq end;
            repeat case_match; first [assumption | by apply same_text_emit] ].
    - unfold initial_state.
      repeat match goal with Heq : truthy _ = truthy _ |- _ => rewrite Heq; clear Heq end.
      done. }
  unfold compiled, stmt_where. rewrite Hc.
  destruct (truthy (conditions (compiled_filters b))); repeat split; simpl; congruence.
Qed.

(** X1. The two SQL texts depend on the filter arguments only through which
    of them are switched on (and on the sort through the whitelisted column and
    direction): two calls that agree there produce the same texts, whatever
    values they carry, and as many parameters. *)
Theorem sql_text_depends_on_switches_only a b :
  switches a = switches b →
  sort_column (sort_by a) = sort_column (sort_by b) →
  sort_order_sql (sort_order a) = sort_order_sql (sort_order b) →
  SelectQuery.sql (get_chart_list a).1 = SelectQuery.sql (get_chart_list b).1 ∧
  SelectQuery.sql (get_chart_list a).2 = SelectQuery.sql (get_chart_list b).2 ∧
  length (SelectQuery.args (get_chart_list a).2)
  = length (SelectQuery.args (get_chart_list b).2).
Proof.
  intros Hsw Hcol Hord.
  destruct (same_switches_same_text a b Hsw) as (Hi & Hc & Hp).
  unfold get_chart_list; simpl.
  rewrite Hi, Hp, Hcol, Hord, !length_app, Hp. done.
Qed.
(** *** Counting parameters and conditions *)

Lemma run_param_surplus stmts (surplus : list nat) st :
  Forall2 (λ stmt d, ∀ st,
             (length (params (stmt st)) + length (conditions st)
              = length (params st) + length (conditions (stmt st)) + d)%nat)
    stmts surplus →
  (length (params (run stmts st)) + length (conditions st)
   = length (params st) + length (conditions (run stmts st)) + sum_list surplus)%nat.
Proof.
  intros Hall. revert st.
  induction Hall as [|stmt d stmts surplus Hstmt _ IH]; intros st; simpl; [lia|].
  specialize (IH (stmt st)). specialize (Hstmt st).
  change (run (stmt :: stmts) st) with (run stmts (stmt st)). lia.
Qed.

Lemma run_adds_at_most_one_each stmts st :
  Forall (λ stmt, ∀ st, (length (params (stmt st)) ≤ S (length (params st)))%nat) stmts →
  (length (params (run stmts st)) ≤ length (params st) + length stmts)%nat.
Proof.
  intros Hall. revert st.
  induction Hall as [|stmt stmts Hstmt _ IH]; intros st; simpl; [lia|].
  specialize (IH (stmt st)). specialize (Hstmt st).
  change (run (stmt :: stmts) st) with (run stmts (stmt st)). lia.
Qed.

Ltac count_statement :=
  intros st;
  unfold stmt_sonolus_id, stmt_status, stmt_staff_pick, stmt_min_rating,
    stmt_max_rating, stmt_tags, stmt_min_likes, stmt_max_likes, stmt_min_comments,
    stmt_max_comments, stmt_liked_by, stmt_commented_by, stmt_owned_by_or_handle,
    stmt_title_includes, stmt_description_includes, stmt_artists_includes,
    stmt_author_includes, stmt_meta_includes, if_truthy, if_not_None;
  repeat case_match; simplify_eq/=; rewrite ?length_app; simpl; lia.

(** X4. There is one parameter for every condition, one more for the viewer
    join and one more for the commented-by join; never more than eighteen; the
    count query receives exactly these and the page query two more. *)
Theorem one_parameter_per_condition_or_join a :
  length (params (compiled a))
  = (length (conditions (compiled a))
     + Nat.b2n (truthy (sonolus_id a)) + Nat.b2n (truthy (commented_by a)))%nat
  ∧ (length (params (compiled a)) ≤ 18)%nat
  ∧ length (SelectQuery.args (get_chart_list a).1) = length (params (compiled a))
  ∧ length (SelectQuery.args (get_chart_list a).2)
    = (length (params (compiled a)) + 2)%nat.
Proof.
  rewrite params_compiled, conditions_compiled.
  split; [|split; [|split]].
  - assert (Forall2 (λ stmt d, ∀ st,
               (length (params (stmt st)) + length (conditions st)
                = length (params st) + length (conditions (stmt st)) + d)%nat)
              (filter_statements a)
              [ Nat.b2n (truthy (sonolus_id a)); 0; 0; 0; 0; 0; 0; 0; 0; 0; 0;
                Nat.b2n (truthy (commented_by a)); 0; 0; 0; 0; 0; 0 ]%nat) as Hall.
    { unfold filter_statements.
      repeat apply Forall2_cons_2; try apply Forall2_nil_2; try count_statement.
      - intros st. unfold stmt_sonolus_id, if_truthy.
        destruct (sonolus_id a) as [x|]; [|simpl; lia].
        change (truthy (Some x)) with (truthy x).
        destruct (truthy x); simpl; rewrite ?length_app; simpl; lia.
      - intros st. unfold stmt_commented_by, if_truthy.
        destruct (commented_by a) as [x|]; [|simpl; lia].
        change (truthy (Some x)) with (truthy x).
        destruct (truthy x); simpl; rewrite ?length_app; simpl; lia. }
    pose proof (run_param_surplus _ _ (initial_state a) Hall) as Hrun.
    unfold compiled_filters.
    set (final := run (filter_statements a) (initial_state a)) in *.
    change (params (initial_state a)) with (@nil pyval) in Hrun.
    change (conditions (initial_state a)) with (@nil string) in Hrun.
    simpl in Hrun. lia.
  - pose proof (run_adds_at_most_one_each (filter_statements a) (initial_state a)) as Hrun.
    unfold compiled_filters. apply Hrun.
    unfold filter_statements.
    repeat apply Forall_cons_2; try apply Forall_nil_2; count_statement.
  - unfold get_chart_list; simpl. by rewrite params_compiled.
  - unfold get_chart_list; simpl. by rewrite length_app, params_compiled.
Qed.
Lemma placeholders_bound_emit st v frag :
  (∀ n, known_fragment n (frag n)) →
  placeholders_bound st →
  placeholders_bound (conditions_append frag (params_append v st)).
Proof.
  intros Hfrag Hst. unfold placeholders_bound in *; simpl.
  apply Forall_app; split.
  - eapply Forall_impl; [exact Hst|]. intros c (n & Hn & Hle).
    exists n. split; [done|]. rewrite length_app; simpl. lia.
  - apply Forall_singleton. eexists. split; [apply Hfrag|].
    rewrite length_app; simpl. lia.
Qed.

Lemma placeholders_bound_join st v text :
  placeholders_bound st →
  placeholders_bound (inner_select_add text (params_append v st)).
Proof.
  intros Hst. unfold placeholders_bound in *; simpl.
  eapply Forall_impl; [exact Hst|]. intros c (n & Hn & Hle).
  exists n. split; [done|]. rewrite length_app; simpl. lia.
Qed.

Ltac is_known_fragment :=
  intros ?; unfold known_fragment;
  repeat first [apply list_elem_of_here | apply list_elem_of_further].

Lemma filter_statements_keep_placeholders_bound a :
  Forall (λ stmt, ∀ st, placeholders_bound st → placeholders_bound (stmt st))
    (filter_statements a).
Proof.
  unfold filter_statements.
  repeat apply Forall_cons_2; try apply Forall_nil_2; intros st Hst;
    unfold stmt_sonolus_id, stmt_status, stmt_staff_pick, stmt_min_rating,
      stmt_max_rating, stmt_tags, stmt_min_likes, stmt_max_likes, stmt_min_comments,
      stmt_max_comments, stmt_liked_by, stmt_commented_by, stmt_owned_by_or_handle,
      stmt_title_includes, stmt_description_includes, stmt_artists_includes,
      stmt_author_includes, stmt_meta_includes, if_truthy, if_not_None;
    repeat case_match; try assumption;
    first [ apply placeholders_bound_join; assumption
          | apply placeholders_bound_emit; [is_known_fragment | assumption] ].
Qed.

(** X5. Every condition is one of the seventeen fragments with a placeholder
    number between 1 and the number of parameters, and the LIMIT and OFFSET
    placeholders of the page query are the positions of [items_per_page] and
    [page * items_per_page] in its argument tuple. *)
Theorem every_placeholder_has_a_parameter a :
  placeholders_bound (compiled a)
  ∧ SelectQuery.sql (get_chart_list a).2
    = query_text (inner_select (compiled a))
        (filter_published_at_null (sort_column (sort_by a)))
        (sort_column (sort_by a)) (sort_order_sql (sort_order a))
        (length (params (compiled a)))
  ∧ SelectQuery.args (get_chart_list a).2 !! length (params (compiled a))
    = Some (PyInt (items_per_page a))
  ∧ SelectQuery.args (get_chart_list a).2 !! S (length (params (compiled a)))
    = Some (PyInt (page a * items_per_page a)).
Proof.
  split; [|split; [|split]].
  - unfold placeholders_bound. rewrite conditions_compiled, params_compiled.
    unfold compiled_filters.
    apply (run_preserves placeholders_bound);
      [apply filter_statements_keep_placeholders_bound | by apply Forall_nil_2].
  - reflexivity.
  - unfold get_chart_list; simpl. by rewrite lookup_app_r, Nat.sub_diag.
  - unfold get_chart_list; simpl.
    rewrite lookup_app_r by lia. by replace (S _ - _)%nat with 1%nat by lia.
Qed.

(** *** The viewer *)

Lemma text_grows_refl st : text_grows st st.
Proof. exists "". by rewrite append_empty_r. Qed.

Lemma text_grows_trans st1 st2 st3 :
  text_grows st1 st2 → text_grows st2 st3 → text_grows st1 st3.
Proof.
  intros [r1 H1] [r2 H2]. exists (r1 +:+ r2). by rewrite H2, H1, append_assoc.
Qed.

Lemma filter_statements_grow_text a :
  Forall (λ stmt, ∀ st, text_grows st (stmt st)) (filter_statements a).
Proof.
  unfold filter_statements.
  repeat apply Forall_cons_2; try apply Forall_nil_2; intros st;
    unfold stmt_sonolus_id, stmt_status, stmt_staff_pick, stmt_min_rating,
      stmt_max_rating, stmt_tags, stmt_min_likes, stmt_max_likes, stmt_min_comments,
      stmt_max_comments, stmt_liked_by, stmt_commented_by, stmt_owned_by_or_handle,
      stmt_title_includes, stmt_description_includes, stmt_artists_includes,
      stmt_author_includes, stmt_meta_includes, if_truthy, if_not_None;
    repeat case_match;
    first [ apply text_grows_refl
          | by (exists ""; simpl; rewrite append_empty_r)
          | by eexists ].
Qed.

Lemma run_grows_text stmts st :
  Forall (λ stmt, ∀ st, text_grows st (stmt st)) stmts → text_grows st (run stmts st).
Proof.
  intros Hall.
  apply (run_preserves (text_grows st)); [|apply text_grows_refl].
  eapply Forall_impl; [exact Hall|]. intros stmt Hstmt st' Hst'.
  by eapply text_grows_trans.
Qed.

(** X6. With a viewer ([sonolus_id] non-empty) the viewer is parameter $1 of
    both queries, the LEFT JOIN on chart_likes that follows the FROM clause
    refers to $1, and the page query is tagged [ChartDBResponseLiked]. *)
Theorem viewer_join_is_the_first_parameter a (viewer : string) :
  sonolus_id a = Some viewer → truthy viewer = true →
  params (compiled a) !! 0%nat = Some (PyStr viewer)
  ∧ SelectQuery.args (get_chart_list a).1 !! 0%nat = Some (PyStr viewer)
  ∧ SelectQuery.args (get_chart_list a).2 !! 0%nat = Some (PyStr viewer)
  ∧ SelectQuery.model (get_chart_list a).2 = ChartDBResponseLiked
  ∧ ∃ rest,
      inner_select (compiled a)
      = inner_select (initial_state a) +:+ left_join_chart_likes 1 +:+ rest.
Proof.
  intros Hid Hv.
  assert (stmt_sonolus_id a (initial_state a)
          = inner_select_add left_join_chart_likes
              (params_append (PyStr viewer) (initial_state a))) as Hfirst.
  { unfold stmt_sonolus_id, if_truthy. by rewrite Hid, Hv. }
  pose proof (filter_statements_extend a) as Hext.
  pose proof (filter_statements_grow_text a) as Hgrow.
  unfold filter_statements in Hext, Hgrow.
  apply Forall_cons in Hext as [_ Hext]. apply Forall_cons in Hgrow as [_ Hgrow].
  assert (params (compiled a) !! 0%nat = Some (PyStr viewer)) as Hparam.
  { rewrite params_compiled. unfold compiled_filters, filter_statements.
    change (run (?f :: ?l) ?s) with (run l (f s)). rewrite Hfirst.
    destruct (run_extends _ (inner_select_add left_join_chart_likes
                               (params_append (PyStr viewer) (initial_state a))) Hext)
      as [_ [ps Hps]].
    by rewrite Hps. }
  split; [done|]. split; [done|]. split.
  { unfold get_chart_list; simpl. by rewrite lookup_app_l
      by (apply lookup_lt_is_Some; eauto). }
  split.
  { unfold get_chart_list; simpl.
    change (truthy (sonolus_id a)) with (truthy (sonolus_id a)).
    rewrite Hid. change (truthy (Some viewer)) with (truthy viewer). by rewrite Hv. }
  rewrite inner_select_compiled. unfold compiled_filters, filter_statements.
  change (run (?f :: ?l) ?s) with (run l (f s)). rewrite Hfirst.
  destruct (run_grows_text _ (inner_select_add left_join_chart_likes
                                (params_append (PyStr viewer) (initial_state a))) Hgrow)
    as [rest Hrest].
  rewrite Hrest. simpl. eexists. rewrite !append_assoc. reflexivity.
Qed.

(** *** Paging *)

(** X7. For a page index and a page size that are not negative, the window
    the page query cuts out of the ordered rows is block number [page] of
    size [items_per_page]: its j-th row is row [page * items_per_page + j],
    and it holds at most [items_per_page] rows. *)
Theorem page_window_is_the_pth_block {A} a (ordered : list A) :
  0 ≤ page a → 0 ≤ items_per_page a →
  ∃ window,
    page_window (get_chart_list a).2 ordered = Some window
    ∧ (∀ j, (j < Z.to_nat (items_per_page a))%nat →
            window !! j = ordered !! (Z.to_nat (page a) * Z.to_nat (items_per_page a) + j)%nat)
    ∧ (length window ≤ Z.to_nat (items_per_page a))%nat.
Proof.
  intros Hp Hs. unfold page_window, get_chart_list; simpl.
  rewrite reverse_app; simpl. unfold limit_offset.
  replace (items_per_page a <? 0) with false by lia.
  replace (page a * items_per_page a <? 0) with false by nia.
  simpl. eexists. split; [done|]. split.
  - intros j Hj. rewrite lookup_take_lt by done. rewrite lookup_drop.
    f_equal. rewrite Z2Nat.inj_mul by lia. done.
  - rewrite length_take. lia.
Qed.

Lemma negative_page_size_is_rejected {A} a (ordered : list A) :
  items_per_page a < 0 → page_window (get_chart_list a).2 ordered = None.
Proof.
  intros Hs. unfold page_window, get_chart_list; simpl.
  rewrite reverse_app; simpl. unfold limit_offset.
  by replace (items_per_page a <? 0) with true by lia.
Qed.
End MoreGetChartListFacts.

(** *** ORDER BY *)

(** X2. Whatever [sort_by] and [sort_order] are, the ORDER BY column is one
    of eight fixed expressions, an unknown [sort_by] sorting by [created_at],
    and the direction is DESC exactly when [sort_order] lower-cases to [desc],
    ASC otherwise. *)
Theorem order_by_is_whitelisted `{StrLower} (sort_by sort_order : string) :
  sort_column sort_by
    ∈ [ "created_at"; "published_at"; "rating"; "like_count"; "comment_count";
        decaying_score_sql; "title"; "RANDOM()" ]
  ∧ (sort_by ∉ [ "created_at"; "published_at"; "rating"; "likes"; "comments";
                 "decaying_likes"; "abc"; "random" ] →
     sort_column sort_by = "created_at")
  ∧ (str_lower sort_order = "desc" → sort_order_sql sort_order = "DESC")
  ∧ (str_lower sort_order ≠ "desc" → sort_order_sql sort_order = "ASC").
Proof.
  split; [|split; [|split]].
  - unfold sort_column. destruct (sort_columns !! sort_by) as [v|] eqn:Hv; simpl.
    + apply elem_of_list_to_map_2 in Hv.
      repeat (apply elem_of_cons in Hv as [Hv|Hv]; [injection Hv as -> ->; set_solver|]).
      by apply elem_of_nil in Hv.
    + set_solver.
  - intros Hnot. unfold sort_column.
    unfold sort_columns.
    rewrite (not_elem_of_list_to_map_1 (M := gmap string)); [done|].
    simpl. exact Hnot.
  - intros Hd. unfold sort_order_sql. by rewrite Hd.
  - intros Hd. unfold sort_order_sql.
    destruct (String.eqb_spec (str_lower sort_order) "desc"); done.
Qed.

Lemma sort_column_published_at_iff (sort_by : string) :
  sort_column sort_by = "published_at" ↔ sort_by = "published_at".
Proof.
  split; [|by intros ->].
  unfold sort_column. destruct (sort_columns !! sort_by) as [v|] eqn:Hv; simpl; [|done].
  intros ->. apply elem_of_list_to_map_2 in Hv.
  repeat (apply elem_of_cons in Hv as [Hv|Hv]; [by injection Hv|]).
  by apply elem_of_nil in Hv.
Qed.

(** X3. The page query filters on a not-null publish time exactly when
    [sort_by] is [published_at]: for every other value it sees the rows the
    count query counts, and for [published_at] it sees the published ones,
    never more than are counted. *)
Theorem outer_filter_only_for_published_at (sort_by : string) :
  (sort_by ≠ "published_at" →
     ∀ chart_data, page_rows sort_by chart_data = counted_rows chart_data) ∧
  (sort_by = "published_at" →
     ∀ chart_data,
       page_rows sort_by chart_data
       = List.filter (λ r, bool_decide (is_Some (row_published_at r))) chart_data
       ∧ (length (page_rows sort_by chart_data) ≤ length (counted_rows chart_data))%nat).
Proof.
  split.
  - intros Hne chart_data. apply other_sorts_count_the_page_rows.
    by rewrite sort_column_published_at_iff.
  - intros -> chart_data. split; [done|].
    unfold page_rows, counted_rows. apply List.filter_length_le.
Qed.

(** ** [get_random_charts] *)

(** X8. [get_random_charts]: the arguments are the count, then the viewer
    when there is one, then the staff-pick flag when it is given; the LIMIT is
    $1, the viewer join $2, the PUBLIC filter is always there, and the
    staff-pick placeholder is the last argument's position. *)
Theorem random_charts_placeholders (return_count : Z) (sonolus_id : option string)
    (staff_pick : option bool) :
  let q := get_random_charts return_count sonolus_id staff_pick in
  let viewer := if truthy sonolus_id then [to_py sonolus_id] else [] in
  let pick := match staff_pick with Some v => [PyBool v] | None => [] end in
  SelectQuery.args q = [PyInt return_count] ++ viewer ++ pick
  ∧ SelectQuery.model q
    = (if truthy sonolus_id then ChartDBResponseLiked else ChartDBResponse)
  ∧ ∃ head,
      SelectQuery.sql q
      = head
        +:+ (if truthy sonolus_id then random_charts_left_join 2 else "")
        +:+ random_charts_where_public
        +:+ (match staff_pick with
             | Some _ => random_charts_staff_pick (length (SelectQuery.args q))
             | None => ""
             end)
        +:+ random_charts_order_limit.
Proof.
  intros q viewer pick. unfold q, viewer, pick, get_random_charts.
  destruct (truthy sonolus_id), staff_pick as [v|]; lazy beta iota zeta;
    cbn [SelectQuery.sql SelectQuery.args SelectQuery.model length app];
    (split; [reflexivity|]; split; [reflexivity|]).
  - exists ((random_charts_columns +:+ random_charts_liked_column) +:+ random_charts_from).
    by rewrite !append_assoc.
  - exists ((random_charts_columns +:+ random_charts_liked_column) +:+ random_charts_from).
    rewrite !append_assoc. by change ("" +:+ ?x) with x.
  - exists (random_charts_columns +:+ random_charts_from).
    rewrite !append_assoc. by change ("" +:+ ?x) with x.
  - exists (random_charts_columns +:+ random_charts_from).
    rewrite !append_assoc. by change ("" +:+ ?x) with x.
Qed.

(** ** The mutations, again *)


(** X10. A confirmed [update_file_hash] raises when a non-empty jacket hash
    comes without non-empty v1 and v3 hashes; otherwise it returns an UPDATE
    whose arguments are the hashes that are not [None] (an empty jacket hash
    included), in order, followed by the chart id, to which the WHERE
    placeholder points. *)
Theorem update_file_hash_binds_the_hashes_given (chart_id : string)
    (jacket_hash v1_hash v3_hash music_hash chart_hash preview_hash
       background_hash : option string)
    (update_none_preview update_none_background : bool) :
  let values :=
    not_None_values
      [ PyStr <$> jacket_hash; PyStr <$> v1_hash; PyStr <$> v3_hash;
        PyStr <$> music_hash; PyStr <$> chart_hash; PyStr <$> preview_hash;
        PyStr <$> background_hash ] in
  (truthy jacket_hash = true ∧ (truthy v1_hash = false ∨ truthy v3_hash = false) →
     update_file_hash chart_id jacket_hash v1_hash v3_hash music_hash chart_hash
       preview_hash background_hash true update_none_preview update_none_background
     = Raise (ValueError file_hash_jacket_without_v1_v3))
  ∧ (truthy jacket_hash = false ∨ (truthy v1_hash = true ∧ truthy v3_hash = true) →
     ∃ set_clause,
       update_file_hash chart_id jacket_hash v1_hash v3_hash music_hash chart_hash
         preview_hash background_hash true update_none_preview update_none_background
       = Return (ExecutableQuery.mk
                   (update_file_hash_text set_clause (S (length values)))
                   (values ++ [PyStr chart_id]))).
Proof.
  intros values. split.
  - intros [Hj Hv]. unfold update_file_hash. simpl negb. cbv iota. rewrite Hj.
    by destruct Hv as [-> | ->]; rewrite ?andb_false_r.
  - intros Hok. unfold update_file_hash. simpl negb. cbv iota.
    assert (truthy jacket_hash && negb (truthy v1_hash && truthy v3_hash) = false) as ->.
    { destruct Hok as [->|[-> ->]]; [done|by rewrite andb_false_r]. }
    cbv zeta. unfold values, not_None_values.
    destruct jacket_hash, v1_hash, v3_hash, music_hash, chart_hash, preview_hash,
      background_hash; destruct update_none_preview, update_none_background;
      eexists; reflexivity.
Qed.

(** X11. A confirmed [delete_chart] restricts the DELETE to the author only
    for a non-empty [sonolus_id]; with [None] or the empty string it deletes
    the chart of any author. *)
Theorem delete_chart_checks_the_owner_when_given (chart_id : string)
    (sonolus_id : option string) :
  (sonolus_id = None ∨ sonolus_id = Some "" →
     delete_chart chart_id sonolus_id true
     = Return (SelectQuery.mk ChartDBResponse delete_chart_any_author_sql
                 [PyStr chart_id]))
  ∧ (∀ owner, sonolus_id = Some owner → owner ≠ "" →
       delete_chart chart_id sonolus_id true
       = Return (SelectQuery.mk ChartDBResponse delete_chart_by_author_sql
                   [PyStr chart_id; PyStr owner])).
Proof.
  split.
  - by intros [-> | ->].
  - intros owner -> Hne. unfold delete_chart. by destruct owner.
Qed.

(** ** The session allocator and the session lookup *)

(** X18. At the very millisecond of its expiry a session is neither live for
    the lookup nor free for the allocator; in general a live session is never
    free and a free slot never live. *)
Theorem session_at_its_expiry_is_neither_live_nor_free (v : Session) (key : string) :
  session_is_live (inject_Z (expires v)) key v = false
  ∧ null_or_expired (inject_Z (expires v)) (Some v) = false
  ∧ (∀ now_ms, session_is_live now_ms key v = true →
               null_or_expired now_ms (Some v) = false)
  ∧ (∀ now_ms, null_or_expired now_ms (Some v) = true →
               session_is_live now_ms key v = false).
Proof.
  assert (∀ now_ms, session_is_live now_ms key v = true →
                    null_or_expired now_ms (Some v) = false) as Hlive.
  { intros now_ms. unfold session_is_live, null_or_expired.
    intros [_ Hl]%andb_true_iff.
    destruct (Qlt_le_dec now_ms (inject_Z (expires v))) as [Hlt|]; [|done].
    destruct (Qlt_le_dec (inject_Z (expires v)) now_ms) as [Hgt|]; [|done].
    exfalso. apply (Qlt_irrefl now_ms). by etrans. }
  split; [|split; [|split]].
  - unfold session_is_live.
    destruct (Qlt_le_dec _ _) as [Hlt|]; [|by rewrite andb_false_r].
    by apply Qlt_irrefl in Hlt.
  - unfold null_or_expired. destruct (Qlt_le_dec _ _) as [Hlt|]; [|done].
    by apply Qlt_irrefl in Hlt.
  - exact Hlive.
  - intros now_ms Hfree. destruct (session_is_live now_ms key v) eqn:Hl; [|done].
    apply Hlive in Hl. congruence.
Qed.

Section MoreAllocator.
Context `{OrderBy}.

(** The session query on an account that has the session type. *)
Lemma run_session_query_writes now_ms (token sonolus_id session_type : string)
    (expiry_time : Z) (accounts : Accounts) (s : Sessions) (slots : Slots) :
  accounts !! sonolus_id = Some s →
  s !! session_type = Some slots →
  ∃ slot,
    first_free_or_least_expiry now_ms slots slot
    ∧ run_session_query now_ms
        [PyStr sonolus_id; PyStr session_type; PyStr token; PyInt expiry_time] accounts
      = inr (<[sonolus_id :=
                 <[session_type :=
                     <[slot := {| session_key := token; expires := expiry_time |}]>
                       slots]> s]> accounts,
             [ {| returned_session_key := Some token;
                  returned_expires := Some expiry_time |} ]).
Proof.
  intros Hacc Hs.
  destruct (slot_to_use_chooses now_ms s session_type slots Hs)
    as (slot & Hslot & Hchosen).
  exists slot. split; [done|].
  simpl. unfold PyInt. rewrite Hacc, Hslot.
  unfold jsonb_extract_path, jsonb_set. rewrite Hs.
  rewrite lookup_insert_eq. simpl. by rewrite lookup_insert_eq.
Qed.

Lemma chosen_slot_is_numbered_or_present now_ms (slots : Slots) slot :
  first_free_or_least_expiry now_ms slots slot →
  slot ∈ ["1"; "2"; "3"] ∨ is_Some (slots !! slot).
Proof.
  intros [[-> _]|[(-> & _)|[(-> & _)|(_ & _ & _ & v & Hv & _)]]];
    [left; set_solver..|right; eauto].
Qed.

(** X12. When the slots of a session type are keyed within 1, 2, 3, they
    still are after a login, so there are never more than three. *)
Theorem allocator_keeps_at_most_three_slots now_ms (token sonolus_id session_type : string)
    (expiry_time : Z) (accounts : Accounts) (s : Sessions) (slots : Slots) :
  accounts !! sonolus_id = Some s →
  s !! session_type = Some slots →
  dom slots ⊆ {["1"; "2"; "3"]} →
  ∃ accounts' rows slots',
    run_session_query now_ms
      [PyStr sonolus_id; PyStr session_type; PyStr token; PyInt expiry_time] accounts
    = inr (accounts', rows)
    ∧ (accounts' !! sonolus_id ≫= λ s', s' !! session_type) = Some slots'
    ∧ dom slots' ⊆ {["1"; "2"; "3"]}
    ∧ (size slots' ≤ 3)%nat.
Proof.
  intros Hacc Hs Hdom.
  destruct (run_session_query_writes now_ms token sonolus_id session_type expiry_time
              accounts s slots Hacc Hs) as (slot & Hchosen & Hrun).
  eexists _, _, _. split; [exact Hrun|].
  rewrite lookup_insert_eq; simpl. rewrite lookup_insert_eq.
  split; [done|].
  assert (dom (<[slot := {| session_key := token; expires := expiry_time |}]> slots)
          ⊆ ({["1"; "2"; "3"]} : gset string)) as Hdom'.
  { rewrite dom_insert.
    destruct (chosen_slot_is_numbered_or_present _ _ _ Hchosen) as [Hin|Hin].
    - set_solver.
    - apply elem_of_dom in Hin. set_solver. }
  split; [done|].
  rewrite <-size_dom. etrans; [apply subseteq_size, Hdom'|]. done.
Qed.

(** Live for the lookup implies not free for the allocator. *)
Lemma live_session_is_not_free now_ms (key : string) (v : Session) :
  session_is_live now_ms key v = true → null_or_expired now_ms (Some v) = false.
Proof.
  unfold session_is_live, null_or_expired. intros [_ Hlive]%andb_true_iff.
  destruct (Qlt_le_dec now_ms (inject_Z (expires v))) as [Hlt|]; [|done].
  destruct (Qlt_le_dec (inject_Z (expires v)) now_ms) as [Hgt|]; [|done].
  exfalso. apply (Qlt_irrefl now_ms). by etrans.
Qed.

(** X13. A login overwrites a session that the lookup would still accept only
    when slots 1, 2 and 3 are all occupied and unexpired, and then it is one
    of least expiry. *)
Theorem live_session_is_evicted_only_when_all_are_live now_ms
    (token sonolus_id session_type : string) (expiry_time : Z)
    (accounts : Accounts) (s : Sessions) (slots : Slots) :
  accounts !! sonolus_id = Some s →
  s !! session_type = Some slots →
  ∃ slot accounts' rows,
    run_session_query now_ms
      [PyStr sonolus_id; PyStr session_type; PyStr token; PyInt expiry_time] accounts
    = inr (accounts', rows)
    ∧ (accounts' !! sonolus_id ≫= λ s', jsonb_extract_path s' session_type slot)
      = Some {| session_key := token; expires := expiry_time |}
    ∧ ∀ old key,
        slots !! slot = Some old → session_is_live now_ms key old = true →
        (∀ k, k ∈ ["1"; "2"; "3"] →
              ∃ v, slots !! k = Some v ∧ (now_ms <= inject_Z (expires v))%Q)
        ∧ (∀ k v, slots !! k = Some v → expires old ≤ expires v).
Proof.
  intros Hacc Hs.
  destruct (run_session_query_writes now_ms token sonolus_id session_type expiry_time
              accounts s slots Hacc Hs) as (slot & Hchosen & Hrun).
  eexists slot, _, _. split; [exact Hrun|]. split.
  { rewrite lookup_insert_eq; simpl. unfold jsonb_extract_path.
    rewrite lookup_insert_eq; simpl. by rewrite lookup_insert_eq. }
  intros old key Hold Hlive. apply live_session_is_not_free in Hlive.
  assert (∀ k, null_or_expired now_ms (slots !! k) = false →
               ∃ v, slots !! k = Some v ∧ (now_ms <= inject_Z (expires v))%Q) as Hactive.
  { intros k Hk. destruct (slots !! k) as [v|]; [|done]. exists v. split; [done|].
    simpl in Hk. by destruct (Qlt_le_dec (inject_Z (expires v)) now_ms). }
  destruct Hchosen as [[-> E]|[(-> & _ & E)|[(-> & _ & _ & E)|(E1 & E2 & E3 & v & Hv & Hleast)]]];
    try (rewrite Hold in E; congruence).
  split.
  - intros k Hk. apply Hactive.
    repeat (apply elem_of_cons in Hk as [->|Hk]; [done|]). by apply elem_of_nil in Hk.
  - rewrite Hold in Hv. by injection Hv as ->.
Qed.

(** X14. A login changes nothing but the one slot: other accounts, the other
    session type and the other slots of the type read as before. *)
Theorem login_leaves_everything_else_alone now_ms
    (token sonolus_id session_type : string) (expiry_time : Z)
    (accounts : Accounts) (s : Sessions) (slots : Slots) :
  accounts !! sonolus_id = Some s →
  s !! session_type = Some slots →
  ∃ slot accounts' rows,
    run_session_query now_ms
      [PyStr sonolus_id; PyStr session_type; PyStr token; PyInt expiry_time] accounts
    = inr (accounts', rows)
    ∧ (∀ other, other ≠ sonolus_id → accounts' !! other = accounts !! other)
    ∧ (∀ other_type, other_type ≠ session_type →
         (accounts' !! sonolus_id ≫= λ s', s' !! other_type) = s !! other_type)
    ∧ (∀ other_slot, other_slot ≠ slot →
         (accounts' !! sonolus_id ≫= λ s', jsonb_extract_path s' session_type other_slot)
         = slots !! other_slot).
Proof.
  intros Hacc Hs.
  destruct (run_session_query_writes now_ms token sonolus_id session_type expiry_time
              accounts s slots Hacc Hs) as (slot & Hchosen & Hrun).
  eexists slot, _, _. split; [exact Hrun|]. split; [|split].
  - intros other Hne. by rewrite lookup_insert_ne.
  - intros other_type Hne. rewrite lookup_insert_eq; simpl. by rewrite lookup_insert_ne.
  - intros other_slot Hne. rewrite lookup_insert_eq; simpl. unfold jsonb_extract_path.
    rewrite lookup_insert_eq; simpl. by rewrite lookup_insert_ne.
Qed.

(** The lookup finds a live session in any slot. *)
Lemma lookup_finds_live_session now_ms (sonolus_id session_type key slot : string)
    (accounts : Accounts) (s : Sessions) (slots : Slots) (v : Session) :
  accounts !! sonolus_id = Some s →
  s !! session_type = Some slots →
  slots !! slot = Some v →
  session_is_live now_ms key v = true →
  run_account_from_session now_ms session_type [PyStr sonolus_id; PyStr key] accounts
  = inr [sonolus_id].
Proof.
  intros Hacc Hs Hv Hlive. simpl. rewrite Hacc, Hs. simpl.
  destruct (existsb _ _) eqn:Hex; [done|].
  apply not_true_iff_false in Hex. exfalso. apply Hex.
  apply existsb_exists. exists (slot, v). split; [|done].
  apply list_elem_of_In. by apply elem_of_map_to_list.
Qed.

(** X17. When the lookup returns a row, it is the account asked for, and one
    of its slots of that session type holds the presented key with an expiry
    strictly after now; it never returns more than that one row. *)
Theorem lookup_needs_live_session now_ms (sonolus_id session_type key : string)
    (accounts : Accounts) rows :
  run_account_from_session now_ms session_type [PyStr sonolus_id; PyStr key] accounts
  = inr rows →
  rows = [] ∨
  rows = [sonolus_id]
  ∧ ∃ s slots slot v,
      accounts !! sonolus_id = Some s ∧ s !! session_type = Some slots
      ∧ slots !! slot = Some v ∧ session_key v = key
      ∧ (now_ms < inject_Z (expires v))%Q.
Proof.
  simpl. destruct (accounts !! sonolus_id) as [s|] eqn:Hacc; [|intros [= <-]; by left].
  destruct (existsb _ _) eqn:Hex; intros [= <-]; [right|by left].
  split; [done|].
  apply existsb_exists in Hex as ([slot v] & Hin & Hlive).
  apply list_elem_of_In in Hin.
  destruct (s !! session_type) as [slots|] eqn:Hs; simpl in Hin;
    [|by rewrite map_to_list_empty in Hin; apply elem_of_nil in Hin].
  apply elem_of_map_to_list in Hin.
  unfold session_is_live in Hlive. apply andb_true_iff in Hlive as [Hkey Hexp].
  apply String.eqb_eq in Hkey. simpl in *.
  destruct (Qlt_le_dec now_ms (inject_Z (expires v))); [|done].
  by exists s, slots, slot, v.
Qed.

(** X15. After a login the lookup accepts the new token at any moment
    strictly before its expiry. *)
Theorem fresh_session_authenticates now_ms later_ms
    (token sonolus_id session_type : string) (expiry_time : Z)
    (accounts : Accounts) (s : Sessions) (slots : Slots) :
  accounts !! sonolus_id = Some s →
  s !! session_type = Some slots →
  (later_ms < inject_Z expiry_time)%Q →
  ∃ accounts' rows,
    run_session_query now_ms
      [PyStr sonolus_id; PyStr session_type; PyStr token; PyInt expiry_time] accounts
    = inr (accounts', rows)
    ∧ run_account_from_session later_ms session_type
        [PyStr sonolus_id; PyStr token] accounts'
      = inr [sonolus_id].
Proof.
  intros Hacc Hs Hlater.
  destruct (run_session_query_writes now_ms token sonolus_id session_type expiry_time
              accounts s slots Hacc Hs) as (slot & Hchosen & Hrun).
  eexists _, _. split; [exact Hrun|].
  eapply (lookup_finds_live_session _ _ _ _ slot).
  - apply lookup_insert_eq.
  - apply lookup_insert_eq.
  - apply lookup_insert_eq.
  - unfold session_is_live; simpl. rewrite String.eqb_refl. simpl.
    destruct (Qlt_le_dec later_ms (inject_Z expiry_time)) as [|Hle]; [done|].
    exfalso. apply (Qlt_irrefl later_ms). by eapply Qlt_le_trans.
Qed.

(** X16. A session in another slot that is live before a login is still
    accepted after it. *)
Theorem other_sessions_survive_a_login now_ms
    (token sonolus_id session_type other_token : string) (expiry_time : Z)
    (accounts : Accounts) (s : Sessions) (slots : Slots) :
  accounts !! sonolus_id = Some s →
  s !! session_type = Some slots →
  ∃ slot accounts' rows,
    run_session_query now_ms
      [PyStr sonolus_id; PyStr session_type; PyStr token; PyInt expiry_time] accounts
    = inr (accounts', rows)
    ∧ ∀ other_slot v,
        other_slot ≠ slot → slots !! other_slot = Some v →
        session_is_live now_ms other_token v = true →
        run_account_from_session now_ms session_type
          [PyStr sonolus_id; PyStr other_token] accounts'
        = inr [sonolus_id].
Proof.
  intros Hacc Hs.
  destruct (run_session_query_writes now_ms token sonolus_id session_type expiry_time
              accounts s slots Hacc Hs) as (slot & Hchosen & Hrun).
  eexists slot, _, _. split; [exact Hrun|].
  intros other_slot v Hne Hv Hlive.
  eapply (lookup_finds_live_session _ _ _ _ other_slot); [..|exact Hlive].
  - apply lookup_insert_eq.
  - apply lookup_insert_eq.
  - by rewrite lookup_insert_ne.
Qed.
(** X19. The session query against an unknown account returns no row and
    writes nothing; against an account whose sessions lack the session type it
    writes nothing and returns one row of NULLs. *)
Theorem login_without_a_place_to_write now_ms (token sonolus_id session_type : string)
    (expiry_time : Z) (accounts : Accounts) :
  (accounts !! sonolus_id = None →
     run_session_query now_ms
       [PyStr sonolus_id; PyStr session_type; PyStr token; PyInt expiry_time] accounts
     = inr (accounts, []))
  ∧ (∀ s, accounts !! sonolus_id = Some s → s !! session_type = None →
       run_session_query now_ms
         [PyStr sonolus_id; PyStr session_type; PyStr token; PyInt expiry_time] accounts
       = inr (accounts,
              [ {| returned_session_key := None; returned_expires := None |} ])).
Proof.
  split.
  - intros Hacc. simpl. unfold PyInt. by rewrite Hacc.
  - intros s Hacc Hs. simpl. unfold PyInt. rewrite Hacc.
    unfold slot_to_use, jsonb_extract_path, jsonb_set. rewrite Hs. simpl.
    rewrite Hs. simpl. by rewrite insert_id.
Qed.

(** X20. For an account that does not exist yet, the two statements of a
    login create it with empty game and external slots and put the session in
    slot 1 of the requested type, returning its token and expiry. *)
Theorem first_login_of_a_new_account now_ms (token sonolus_id : string)
    (sonolus_handle : Z) (sonolus_username session_type : string) (expiry_time : Z)
    (accounts : Accounts) :
  session_type = "game" ∨ session_type = "external" →
  accounts !! sonolus_id = None →
  ∃ queries,
    create_account_if_not_exists_and_new_session token sonolus_id sonolus_handle
      sonolus_username session_type expiry_time
    = Return queries
    ∧ run_login now_ms queries accounts
      = inr (<[sonolus_id :=
                 <[session_type :=
                     {["1" := {| session_key := token; expires := expiry_time |}]}]>
                   (<["game" := ∅]> (<["external" := ∅]> ∅))]> accounts,
             [ {| returned_session_key := Some token;
                  returned_expires := Some expiry_time |} ]).
Proof.
  intros Hty Hacc.
  assert (create_account_if_not_exists_and_new_session token sonolus_id
            sonolus_handle sonolus_username session_type expiry_time
          = Return
              (ExecutableQuery.mk upsert_account_sql
                 [PyStr sonolus_id; PyInt sonolus_handle; PyStr sonolus_username],
               SelectQuery.mk SessionData session_slot_sql
                 [PyStr sonolus_id; PyStr session_type; PyStr token;
                  PyInt expiry_time])) as Hcreate.
  { by destruct Hty as [-> | ->]. }
  eexists. split; [exact Hcreate|].
  unfold run_login. simpl run_upsert_account. unfold PyInt. rewrite Hacc.
  cbv beta iota. simpl SelectQuery.args. simpl snd.
  assert ((<["game" := ∅]> (<["external" := ∅]> ∅) : Sessions) !! session_type
          = Some ∅) as Hs by (by destruct Hty as [-> | ->]).
  destruct (run_session_query_writes now_ms token sonolus_id session_type expiry_time
              (<[sonolus_id := <["game" := ∅]> (<["external" := ∅]> ∅)]> accounts)
              _ ∅ (lookup_insert_eq _ _ _) Hs) as (slot & Hchosen & Hrun).
  assert (slot = "1") as ->.
  { destruct Hchosen as [[-> _]|[(_ & E & _)|[(_ & E & _)|(E & _)]]];
      [done|by rewrite lookup_empty in E..]. }
  unfold PyInt in Hrun. rewrite Hrun.
  by rewrite insert_insert_eq, insert_empty.
Qed.

Lemma login_of_a_known_account_keeps_its_sessions now_ms (token sonolus_id : string)
    (sonolus_handle : Z) (sonolus_username session_type : string) (expiry_time : Z)
    (accounts : Accounts) (s : Sessions) :
  session_type = "game" ∨ session_type = "external" →
  accounts !! sonolus_id = Some s →
  ∃ queries,
    create_account_if_not_exists_and_new_session token sonolus_id sonolus_handle
      sonolus_username session_type expiry_time
    = Return queries
    ∧ run_upsert_account (ExecutableQuery.args queries.1) accounts = inr accounts
    ∧ run_login now_ms queries accounts
      = run_session_query now_ms (SelectQuery.args queries.2) accounts.
Proof.
  intros Hty Hacc.
  exists (ExecutableQuery.mk upsert_account_sql
            [PyStr sonolus_id; PyInt sonolus_handle; PyStr sonolus_username],
          SelectQuery.mk SessionData session_slot_sql
            [PyStr sonolus_id; PyStr session_type; PyStr token; PyInt expiry_time]).
  split; [by destruct Hty as [-> | ->]|].
  unfold run_login. simpl run_upsert_account. unfold PyInt. by rewrite Hacc.
Qed.
End MoreAllocator.

(** X21. Both session functions accept exactly the session types [game] and
    [external]: the allocator raises [ValueError] for any other, the lookup
    fails its assertion. *)
Theorem session_type_is_validated (session_type : string) :
  (session_type ∈ ["game"; "external"] →
     (∀ token sonolus_id handle name expiry,
        ∃ queries,
          create_account_if_not_exists_and_new_session token sonolus_id handle name
            session_type expiry = Return queries)
     ∧ (∀ sonolus_id key,
          get_account_from_session sonolus_id key session_type
          = Passed (AccountQuery.mk Account (account_from_session_sql session_type)
                      [PyStr sonolus_id; PyStr key])))
  ∧ (session_type ∉ ["game"; "external"] →
     (∀ token sonolus_id handle name expiry,
        create_account_if_not_exists_and_new_session token sonolus_id handle name
          session_type expiry = Raise (ValueError invalid_session_type))
     ∧ (∀ sonolus_id key,
          get_account_from_session sonolus_id key session_type = AssertionError)).
Proof.
  split; intros Hty; split; intros;
    unfold create_account_if_not_exists_and_new_session, get_account_from_session.
  - rewrite bool_decide_eq_true_2 by done. simpl. eauto.
  - by rewrite bool_decide_eq_true_2.
  - by rewrite bool_decide_eq_false_2.
  - by rewrite bool_decide_eq_false_2.
Qed.

(** ** Roles *)

Lemma run_set_admin sonolus_id (status : bool) roles :
  run_role_update (set_admin sonolus_id status) roles
  = inr (alter (λ r, {| admin := status;
                        moderator := if status then true else moderator r |})
           sonolus_id roles).
Proof. destruct status; vm_compute run_role_update; reflexivity. Qed.

Lemma run_set_mod sonolus_id (status : bool) roles :
  run_role_update (set_mod sonolus_id status) roles
  = inr (alter (λ r, {| admin := if status then admin r else false;
                        moderator := status |})
           sonolus_id roles).
Proof. destruct status; vm_compute run_role_update; reflexivity. Qed.

(** X22. If every admin is a moderator, this is still so after [set_admin]
    or [set_mod] with either status on any account. *)
Theorem role_updates_keep_admins_moderators (sonolus_id : string) (status : bool)
    (roles : gmap string Roles) :
  admins_are_moderators roles →
  ∃ after_admin after_mod,
    run_role_update (set_admin sonolus_id status) roles = inr after_admin
    ∧ run_role_update (set_mod sonolus_id status) roles = inr after_mod
    ∧ admins_are_moderators after_admin
    ∧ admins_are_moderators after_mod.
Proof.
  intros Hinv. eexists _, _.
  split; [apply run_set_admin|]. split; [apply run_set_mod|].
  split; intros id r Hr Hadmin;
    apply lookup_alter_Some in Hr as [(-> & r0 & Hr0 & ->)|[_ Hr]];
    try (by eapply Hinv); simpl in *.
  - destruct status; [done|discriminate].
  - destruct status; [done|discriminate].
Qed.

(** X23. On an existing account: granting admin grants moderator too,
    revoking admin keeps moderator, granting moderator keeps admin as it is,
    revoking moderator revokes admin too; other accounts are not touched. *)
Theorem role_updates_by_case (sonolus_id : string) (r : Roles)
    (roles : gmap string Roles) :
  roles !! sonolus_id = Some r →
  run_role_update (set_admin sonolus_id true) roles
  = inr (<[sonolus_id := {| admin := true; moderator := true |}]> roles)
  ∧ run_role_update (set_admin sonolus_id false) roles
    = inr (<[sonolus_id := {| admin := false; moderator := moderator r |}]> roles)
  ∧ run_role_update (set_mod sonolus_id true) roles
    = inr (<[sonolus_id := {| admin := admin r; moderator := true |}]> roles)
  ∧ run_role_update (set_mod sonolus_id false) roles
    = inr (<[sonolus_id := {| admin := false; moderator := false |}]> roles).
Proof.
  intros Hr. rewrite !run_set_admin, !run_set_mod.
  repeat split; f_equal; apply map_eq; intros k;
    destruct (decide (k = sonolus_id)) as [->|Hne];
    rewrite ?lookup_alter_eq, ?lookup_insert_eq, ?Hr;
    rewrite ?lookup_alter_ne, ?lookup_insert_ne by done; done.
Qed.

(** X24. A role update for an id that is not in the table changes nothing. *)
Theorem role_update_of_unknown_account (sonolus_id : string) (status : bool)
    (roles : gmap string Roles) :
  roles !! sonolus_id = None →
  run_role_update (set_admin sonolus_id status) roles = inr roles
  ∧ run_role_update (set_mod sonolus_id status) roles = inr roles.
Proof.
  intros Hr. rewrite run_set_admin, run_set_mod.
  split; f_equal; apply map_eq; intros k;
    destruct (decide (k = sonolus_id)) as [->|Hne];
    rewrite ?lookup_alter_eq, ?Hr; rewrite ?lookup_alter_ne by done; done.
Qed.

(** ** Chart status, publication and likes *)

Lemma cast_chart_status_label (status : chart_status) :
  cast_chart_status (chart_status_label status) = Some status.
Proof. by destruct status. Qed.

Lemma update_status_texts_differ :
  String.eqb update_status_any_author_sql update_status_by_author_sql = false.
Proof. vm_compute. reflexivity. Qed.

Lemma update_scheduled_publish_texts_differ :
  String.eqb update_scheduled_publish_any_author_sql
    update_scheduled_publish_by_author_sql = false.
Proof. vm_compute. reflexivity. Qed.

(** The owner a builder passes on: a non-empty [sonolus_id], or none. *)
Lemma truthy_owner (sonolus_id : option string) :
  (truthy sonolus_id = true ∧ ∃ owner, sonolus_id = Some owner ∧ owner ≠ "")
  ∨ (truthy sonolus_id = false ∧ (sonolus_id = None ∨ sonolus_id = Some "")).
Proof.
  destruct sonolus_id as [[|ch owner]|]; [right|left|right]; split; eauto.
Qed.

Lemma run_update_status_of_builder now chart_id status sonolus_id charts accounts :
  run_update_status now (update_status chart_id status sonolus_id) charts accounts
  = inr (run_chart_update (set_status now status) Chart.published_at chart_id
           (if truthy sonolus_id then sonolus_id else None) charts accounts).
Proof.
  unfold run_update_status, update_status.
  destruct (truthy_owner sonolus_id) as [[-> (owner & -> & _)]|[-> _]];
    cbn [SelectQuery.sql SelectQuery.args].
  - rewrite String.eqb_refl.
    change (to_py status) with (PyStr (chart_status_label status)).
    change (to_py (Some owner)) with (PyStr owner).
    lazy beta iota. by rewrite cast_chart_status_label.
  - rewrite update_status_texts_differ, String.eqb_refl.
    change (to_py status) with (PyStr (chart_status_label status)).
    lazy beta iota. by rewrite cast_chart_status_label.
Qed.

Lemma run_update_scheduled_publish_of_builder chart_id seconds sonolus_id charts
    accounts :
  run_update_scheduled_publish (update_scheduled_publish chart_id seconds sonolus_id)
    charts accounts
  = inr (run_chart_update (set_scheduled_publish seconds) Chart.scheduled_publish
           chart_id (if truthy sonolus_id then sonolus_id else None) charts accounts).
Proof.
  unfold run_update_scheduled_publish, update_scheduled_publish.
  destruct (truthy_owner sonolus_id) as [[-> (owner & -> & _)]|[-> _]];
    cbn [SelectQuery.sql SelectQuery.args].
  - rewrite String.eqb_refl.
    change (to_py (Some owner)) with (PyStr owner).
    by destruct seconds.
  - rewrite update_scheduled_publish_texts_differ, String.eqb_refl.
    by destruct seconds.
Qed.

Lemma set_status_keeps_publication now status : keeps_publication (set_status now status).
Proof.
  intros c; split; [done|]. intros t Ht. unfold set_status; simpl.
  rewrite Ht. rewrite (bool_decide_eq_false_2 (Some t = None)) by done.
  by rewrite andb_false_r.
Qed.

Lemma set_scheduled_publish_keeps_publication seconds :
  keeps_publication (set_scheduled_publish seconds).
Proof. by intros c. Qed.

Lemma run_chart_update_keeps_publication set column p2 p3 charts accounts
    chart_id c t :
  keeps_publication set →
  charts !! chart_id = Some c → Chart.published_at c = Some t →
  ∃ c', (run_chart_update set column p2 p3 charts accounts).1 !! chart_id = Some c'
        ∧ Chart.published_at c' = Some t ∧ Chart.author c' = Chart.author c.
Proof.
  intros Hset Hc Ht. unfold run_chart_update.
  destruct (charts !! p2) as [d|] eqn:Hd; [|by exists c].
  destruct (match p3 with Some owner => _ | None => _ end); [|by exists c].
  simpl. destruct (decide (p2 = chart_id)) as [->|Hne].
  - assert (d = c) as -> by congruence.
    exists (set c). rewrite lookup_insert_eq.
    destruct (Hset c) as [Ha Hp]. eauto.
  - exists c. by rewrite lookup_insert_ne.
Qed.

Lemma after_call_keeps_publication accounts call charts chart_id c t :
  charts !! chart_id = Some c → Chart.published_at c = Some t →
  ∃ c', after_call accounts charts call !! chart_id = Some c'
        ∧ Chart.published_at c' = Some t ∧ Chart.author c' = Chart.author c.
Proof.
  intros Hc Ht. unfold after_call. destruct call as [now id status sid|id seconds sid].
  - rewrite run_update_status_of_builder.
    destruct (run_chart_update _ _ _ _ _ _) as [charts' rows] eqn:Hrun.
    change charts' with (charts', rows).1. rewrite <- Hrun.
    by apply run_chart_update_keeps_publication;
      [apply set_status_keeps_publication|..].
  - rewrite run_update_scheduled_publish_of_builder.
    destruct (run_chart_update _ _ _ _ _ _) as [charts' rows] eqn:Hrun.
    change charts' with (charts', rows).1. rewrite <- Hrun.
    by apply run_chart_update_keeps_publication;
      [apply set_scheduled_publish_keeps_publication|..].
Qed.

(** X25. The publish time of a chart is written once: whatever calls of
    [update_status] and [update_scheduled_publish] follow, by whomever and in
    whatever order, a chart that has a publish time keeps that very time, and
    keeps its author. *)
Theorem publish_time_is_written_once (accounts : gset string)
    (calls : list chart_call) (charts : Charts) (chart_id : string) (c : Chart.t)
    (t : Z) :
  charts !! chart_id = Some c →
  Chart.published_at c = Some t →
  ∃ c', after_calls accounts calls charts !! chart_id = Some c'
        ∧ Chart.published_at c' = Some t
        ∧ Chart.author c' = Chart.author c.
Proof.
  unfold after_calls. revert charts c.
  induction calls as [|call calls IH]; intros charts c Hc Ht; [by exists c|].
  simpl.
  destruct (after_call_keeps_publication accounts call charts chart_id c t Hc Ht)
    as (c1 & Hc1 & Ht1 & Ha1).
  destruct (IH _ c1 Hc1 Ht1) as (c' & Hc' & Ht' & Ha').
  exists c'. repeat split; [done..|congruence].
Qed.

Lemma owner_passes (sonolus_id : option string) (c : Chart.t) :
  (truthy sonolus_id = true → sonolus_id = Some (Chart.author c)) →
  match (if truthy sonolus_id then sonolus_id else None) with
  | Some owner => String.eqb (Chart.author c) owner
  | None => true
  end = true.
Proof.
  intros Hown. destruct (truthy sonolus_id); [|done].
  rewrite Hown by done. apply String.eqb_refl.
Qed.

Lemma is_distinct_from_same (a : option Z) : is_distinct_from a a = false.
Proof. unfold is_distinct_from. by apply bool_decide_eq_false_2; intros []. Qed.

(** X26. [update_status] on an existing chart, by its author or without an
    owner given: the chart gets the new status; the returned row carries the
    chart as it was before the statement, with [is_first_publish] true exactly
    when the new status is PUBLIC and the chart had no publish time, in which
    case the publish time becomes the time of the statement; otherwise the
    publish time is left as it is.  A chart set to PUBLIC has a publish time
    afterwards. *)
Theorem first_publish_is_flagged (now : Z) (chart_id : string)
    (status : chart_status) (sonolus_id : option string) (charts : Charts)
    (accounts : gset string) (c : Chart.t) :
  charts !! chart_id = Some c →
  (truthy sonolus_id = true → sonolus_id = Some (Chart.author c)) →
  Chart.author c ∈ accounts →
  ∃ c' is_first_publish,
    run_update_status now (update_status chart_id status sonolus_id) charts accounts
    = inr (<[chart_id := c']> charts,
           [ {| returned_chart := c; returned_flag := is_first_publish |} ])
    ∧ Chart.status c' = status
    ∧ Chart.author c' = Chart.author c
    ∧ Chart.scheduled_publish c' = Chart.scheduled_publish c
    ∧ (is_first_publish = true ↔ status = PUBLIC ∧ Chart.published_at c = None)
    ∧ (is_first_publish = true → Chart.published_at c' = Some now)
    ∧ (is_first_publish = false → Chart.published_at c' = Chart.published_at c)
    ∧ (status = PUBLIC → is_Some (Chart.published_at c')).
Proof.
  intros Hc Hown Hacc.
  rewrite run_update_status_of_builder. unfold run_chart_update.
  rewrite Hc, (owner_passes _ _ Hown), (bool_decide_eq_true_2 _ Hacc).
  eexists _, _. split; [reflexivity|].
  unfold set_status; cbn [Chart.status Chart.author Chart.scheduled_publish
                            Chart.published_at].
  destruct status, (Chart.published_at c) as [t|]; cbn [bool_decide andb];
    rewrite ?bool_decide_eq_true_2, ?(bool_decide_eq_false_2 (Some _ = None)),
      ?(bool_decide_eq_false_2 (_ = PUBLIC)) by done;
    cbn [andb]; rewrite ?is_distinct_from_same;
    repeat split; try done; try (by intros [? ?]); eauto.
Qed.

(** X27. The owner is checked only when a non-empty [sonolus_id] is given:
    with one that is not the chart's author, or for a chart that does not
    exist, [update_status] and [update_scheduled_publish] change nothing and
    return no row; with the empty string they build the statement without the
    owner test, as with [None]. *)
Theorem chart_updates_check_the_owner_when_given (now : Z) (chart_id owner : string)
    (status : chart_status) (publish_time_seconds : option Z) (charts : Charts)
    (accounts : gset string) :
  owner ≠ "" →
  (∀ c, charts !! chart_id = Some c → Chart.author c ≠ owner) →
  run_update_status now (update_status chart_id status (Some owner)) charts accounts
  = inr (charts, [])
  ∧ run_update_scheduled_publish
      (update_scheduled_publish chart_id publish_time_seconds (Some owner))
      charts accounts
    = inr (charts, [])
  ∧ update_status chart_id status (Some "") = update_status chart_id status None
  ∧ update_scheduled_publish chart_id publish_time_seconds (Some "")
    = update_scheduled_publish chart_id publish_time_seconds None.
Proof.
  intros Hne Hother.
  rewrite run_update_status_of_builder, run_update_scheduled_publish_of_builder.
  assert (truthy (Some owner) = true) as -> by (by destruct owner).
  unfold run_chart_update.
  destruct (charts !! chart_id) as [c|] eqn:Hc; [|done].
  assert (String.eqb (Chart.author c) owner = false) as ->; [|done].
  apply String.eqb_neq. by apply Hother.
Qed.

(** X28. [update_scheduled_publish] on an existing chart, by its author or
    without an owner given: [None] clears the schedule, a number of seconds
    sets it to that moment; status and publish time are not touched (a
    schedule publishes nothing by itself); the returned row carries the chart
    as it was before, with [schedule_changed] true exactly when the schedule
    written differs from the one that was there. *)
Theorem schedule_is_set_or_cleared (chart_id : string)
    (publish_time_seconds : option Z) (sonolus_id : option string) (charts : Charts)
    (accounts : gset string) (c : Chart.t) :
  charts !! chart_id = Some c →
  (truthy sonolus_id = true → sonolus_id = Some (Chart.author c)) →
  Chart.author c ∈ accounts →
  ∃ c' schedule_changed,
    run_update_scheduled_publish
      (update_scheduled_publish chart_id publish_time_seconds sonolus_id)
      charts accounts
    = inr (<[chart_id := c']> charts,
           [ {| returned_chart := c; returned_flag := schedule_changed |} ])
    ∧ Chart.scheduled_publish c' = to_timestamp <$> publish_time_seconds
    ∧ Chart.status c' = Chart.status c
    ∧ Chart.published_at c' = Chart.published_at c
    ∧ Chart.author c' = Chart.author c
    ∧ (schedule_changed = true
       ↔ Chart.scheduled_publish c ≠ to_timestamp <$> publish_time_seconds).
Proof.
  intros Hc Hown Hacc.
  rewrite run_update_scheduled_publish_of_builder. unfold run_chart_update.
  rewrite Hc, (owner_passes _ _ Hown), (bool_decide_eq_true_2 _ Hacc).
  eexists _, _. split; [reflexivity|].
  unfold is_distinct_from; simpl.
  assert (match publish_time_seconds with
          | Some seconds => Some (to_timestamp seconds)
          | None => None
          end = to_timestamp <$> publish_time_seconds) as -> by (by destruct publish_time_seconds).
  repeat split; try done.
  - intros Hflag%bool_decide_eq_true_1. congruence.
  - intros Hdiff. apply bool_decide_eq_true_2. congruence.
Qed.

Lemma open_to_spec (sonolus_id : string) (c : Chart.t) :
  open_to sonolus_id c = true
  ↔ Chart.status c ≠ PRIVATE ∨ Chart.author c = sonolus_id.
Proof.
  unfold open_to. rewrite orb_true_iff, andb_true_iff, String.eqb_eq.
  rewrite !bool_decide_eq_true.
  destruct (Chart.status c); split; try (intros [?|?]); try set_solver;
    try (left; set_solver).
Qed.

(** X29. A like can be neither placed nor withdrawn on a chart that does not
    exist or is PRIVATE with another author: [add_like] and [remove_like]
    leave the likes as they are.  A like placed while the chart was open
    therefore stays when the author makes the chart private. *)
Theorem likes_need_an_open_chart `{LikeConstraints} (chart_id sonolus_id : string)
    (charts : Charts) (likes : list Like) :
  (∀ c, charts !! chart_id = Some c →
        Chart.status c = PRIVATE ∧ Chart.author c ≠ sonolus_id) →
  run_add_like (add_like chart_id sonolus_id) charts likes = inr likes
  ∧ run_remove_like (remove_like chart_id sonolus_id) charts likes = inr likes.
Proof.
  intros Hclosed.
  assert (exists_open_chart chart_id sonolus_id charts = false) as Hno.
  { unfold exists_open_chart. destruct (charts !! chart_id) as [c|] eqn:Hc; [|done].
    destruct (Hclosed c eq_refl) as [Hst Hau].
    apply not_true_is_false. rewrite open_to_spec. intros [?|?]; congruence. }
  unfold run_add_like, run_remove_like, add_like, remove_like; simpl.
  by rewrite Hno.
Qed.

(** X30. On a chart that is not PRIVATE, or whose author the account is:
    [add_like] keeps every like there is and adds at most the one of this
    account on this chart; a following [remove_like] removes exactly the
    likes of this account on this chart, so that a like then an unlike by an
    account that had not liked the chart gives back the likes as they were,
    whatever the unique constraints of the table are. *)
Theorem like_then_unlike `{LikeConstraints} (chart_id sonolus_id : string)
    (charts : Charts) (likes : list Like) (c : Chart.t) :
  charts !! chart_id = Some c →
  Chart.status c ≠ PRIVATE ∨ Chart.author c = sonolus_id →
  ∃ liked unliked,
    run_add_like (add_like chart_id sonolus_id) charts likes = inr liked
    ∧ run_remove_like (remove_like chart_id sonolus_id) charts liked = inr unliked
    ∧ (∀ like, like ∈ likes → like ∈ liked)
    ∧ (∀ like, like ∈ liked → like ∈ likes ∨ like = (chart_id, sonolus_id))
    ∧ ((chart_id, sonolus_id) ∉ unliked)
    ∧ (∀ like, like ≠ (chart_id, sonolus_id) → (like ∈ unliked ↔ like ∈ likes))
    ∧ ((chart_id, sonolus_id) ∉ likes → unliked = likes).
Proof.
  intros Hc Hopen%open_to_spec.
  assert (exists_open_chart chart_id sonolus_id charts = true) as Hyes
    by (unfold exists_open_chart; by rewrite Hc).
  set (keep := λ like : Like, negb (bool_decide (like = (chart_id, sonolus_id)))).
  assert (∀ l, (chart_id, sonolus_id) ∉ l → List.filter keep l = l) as Hsame.
  { induction l as [|x l IH]; [done|]. intros Hnot. simpl.
    rewrite not_elem_of_cons in Hnot. destruct Hnot as [Hx Hl].
    unfold keep at 1. rewrite bool_decide_eq_false_2 by done. simpl.
    by rewrite IH. }
  assert (∀ l like, like ∈ List.filter keep l ↔ like ≠ (chart_id, sonolus_id) ∧ like ∈ l)
    as Hin.
  { intros l like. rewrite !list_elem_of_In, filter_In. unfold keep.
    rewrite negb_true_iff, bool_decide_eq_false. tauto. }
  unfold run_add_like, run_remove_like, add_like, remove_like; simpl.
  rewrite Hyes. fold keep.
  destruct (conflicts (chart_id, sonolus_id) likes).
  - exists likes, (List.filter keep likes). repeat split; eauto.
    + intros Hbad%Hin. by destruct Hbad.
    + intros Hl%Hin. by destruct Hl.
    + intros Hl. by apply Hin.
  - exists (likes ++ [(chart_id, sonolus_id)]),
      (List.filter keep (likes ++ [(chart_id, sonolus_id)])).
    repeat split; eauto.
    + intros like Hl. apply elem_of_app. by left.
    + intros like [Hl|Hl%list_elem_of_singleton]%elem_of_app; eauto.
    + intros Hbad%Hin. by destruct Hbad.
    + intros [Hne [Hl|Hl%list_elem_of_singleton]%elem_of_app]%Hin; done.
    + intros Hl. apply Hin. split; [done|]. apply elem_of_app. by left.
    + intros Hnot. rewrite List.filter_app, (Hsame _ Hnot). simpl.
      unfold keep at 1. rewrite bool_decide_eq_true_2 by done. simpl.
      by rewrite app_nil_r.
Qed.

(** ** The further properties at concrete inputs *)

(** X1 at [busy_args] and [busy_args_other_values]: hostile values, same text. *)
Lemma same_text_for_other_values :
  SelectQuery.sql (@get_chart_list ascii_str_lower busy_args).1
  = SelectQuery.sql (@get_chart_list ascii_str_lower busy_args_other_values).1
  ∧ SelectQuery.sql (@get_chart_list ascii_str_lower busy_args).2
    = SelectQuery.sql (@get_chart_list ascii_str_lower busy_args_other_values).2
  ∧ length (SelectQuery.args (@get_chart_list ascii_str_lower busy_args).2)
    = length (SelectQuery.args (@get_chart_list ascii_str_lower busy_args_other_values).2).
Proof.
  apply (@sql_text_depends_on_switches_only ascii_str_lower busy_args
           busy_args_other_values); reflexivity.
Defined.

(** X6 at [busy_args]: the viewer [me] is parameter $1. *)
Lemma viewer_of_busy_args :
  params (@compiled ascii_str_lower busy_args) !! 0%nat = Some (PyStr "me")
  ∧ SelectQuery.args (@get_chart_list ascii_str_lower busy_args).1 !! 0%nat
    = Some (PyStr "me").
Proof.
  destruct (@viewer_join_is_the_first_parameter ascii_str_lower busy_args "me")
    as (Hparam & Hcount & _); [reflexivity | reflexivity |].
  by split.
Defined.

(** X7 at [busy_args], page 1 of size 20, over fifty rows. *)
Lemma second_page_of_fifty_rows :
  ∃ window,
    page_window (@get_chart_list ascii_str_lower busy_args).2 (seq 0 50) = Some window
    ∧ window !! 3%nat = seq 0 50 !! (Z.to_nat 1 * Z.to_nat 20 + 3)%nat.
Proof.
  destruct (@page_window_is_the_pth_block ascii_str_lower nat busy_args (seq 0 50))
    as (window & Hwindow & Hrows & _); [simpl; lia | simpl; lia |].
  exists window. split; [exact Hwindow|]. apply Hrows. simpl. lia.
Defined.

(** X12 at [tied_accounts]. *)
Lemma three_slots_after_a_login :
  ∃ accounts' rows slots',
    @run_session_query merge_sort_engine 50%Q
      [PyStr "acc-1"; PyStr "game"; PyStr "fresh"; PyInt 1850] tied_accounts
    = inr (accounts', rows)
    ∧ (accounts' !! "acc-1" ≫= λ s', s' !! "game") = Some slots'
    ∧ dom slots' ⊆ {["1"; "2"; "3"]}
    ∧ (size slots' ≤ 3)%nat.
Proof.
  apply (@allocator_keeps_at_most_three_slots merge_sort_engine 50%Q "fresh" "acc-1"
           "game" 1850 tied_accounts tied_sessions tied_slots).
  - reflexivity.
  - reflexivity.
  - apply (bool_decide_unpack _). by vm_compute.
Defined.

(** X13 at [tied_accounts]. *)
Lemma eviction_at_tied_accounts :
  ∃ slot accounts' rows,
    @run_session_query merge_sort_engine 50%Q
      [PyStr "acc-1"; PyStr "game"; PyStr "fresh"; PyInt 1850] tied_accounts
    = inr (accounts', rows)
    ∧ (accounts' !! "acc-1" ≫= λ s', jsonb_extract_path s' "game" slot)
      = Some {| session_key := "fresh"; expires := 1850 |}.
Proof.
  destruct (@live_session_is_evicted_only_when_all_are_live merge_sort_engine 50%Q
              "fresh" "acc-1" "game" 1850 tied_accounts tied_sessions tied_slots)
    as (slot & accounts' & rows & Hrun & Hread & _); [reflexivity | reflexivity |].
  by exists slot, accounts', rows.
Defined.

(** X14 at [tied_accounts]: the external slots are as they were. *)
Lemma frame_at_tied_accounts :
  ∃ accounts' rows,
    @run_session_query merge_sort_engine 50%Q
      [PyStr "acc-1"; PyStr "game"; PyStr "fresh"; PyInt 1850] tied_accounts
    = inr (accounts', rows)
    ∧ (accounts' !! "acc-1" ≫= λ s', s' !! "external") = tied_sessions !! "external".
Proof.
  destruct (@login_leaves_everything_else_alone merge_sort_engine 50%Q
              "fresh" "acc-1" "game" 1850 tied_accounts tied_sessions tied_slots)
    as (slot & accounts' & rows & Hrun & _ & Htype & _); [reflexivity | reflexivity |].
  exists accounts', rows. split; [exact Hrun|]. by apply Htype.
Defined.

(** X15 at [tied_accounts]: the token is accepted at 1849.5 ms. *)
Lemma fresh_token_is_accepted :
  ∃ accounts' rows,
    @run_session_query merge_sort_engine 50%Q
      [PyStr "acc-1"; PyStr "game"; PyStr "fresh"; PyInt 1850] tied_accounts
    = inr (accounts', rows)
    ∧ run_account_from_session 1849.5%Q "game" [PyStr "acc-1"; PyStr "fresh"] accounts'
      = inr ["acc-1"].
Proof.
  apply (@fresh_session_authenticates merge_sort_engine 50%Q 1849.5%Q "fresh" "acc-1"
           "game" 1850 tied_accounts tied_sessions tied_slots);
    reflexivity.
Defined.

(** X16 at [tied_accounts]: the session of slot 3 outlives the login. *)
Lemma slot_three_survives :
  ∃ slot accounts' rows,
    @run_session_query merge_sort_engine 50%Q
      [PyStr "acc-1"; PyStr "game"; PyStr "fresh"; PyInt 1850] tied_accounts
    = inr (accounts', rows)
    ∧ (slot = "3"
       ∨ run_account_from_session 50%Q "game" [PyStr "acc-1"; PyStr "k3"] accounts'
         = inr ["acc-1"]).
Proof.
  destruct (@other_sessions_survive_a_login merge_sort_engine 50%Q "fresh" "acc-1"
              "game" "k3" 1850 tied_accounts tied_sessions tied_slots)
    as (slot & accounts' & rows & Hrun & Hother); [reflexivity | reflexivity |].
  exists slot, accounts', rows. split; [exact Hrun|].
  destruct (decide (slot = "3")) as [->|Hne]; [by left|right].
  apply (Hother "3" {| session_key := "k3"; expires := 200 |});
    [congruence | reflexivity | reflexivity].
Defined.

(** X17 at [tied_accounts]: key [k3] is found in a slot that expires after 50. *)
Lemma lookup_of_k3 :
  ["acc-1"] = [] ∨
  ["acc-1"] = ["acc-1"]
  ∧ ∃ s slots slot v,
      tied_accounts !! "acc-1" = Some s ∧ s !! "game" = Some slots
      ∧ slots !! slot = Some v ∧ session_key v = "k3"
      ∧ (50 < inject_Z (expires v))%Q.
Proof.
  apply (lookup_needs_live_session 50%Q "acc-1" "game" "k3" tied_accounts ["acc-1"]).
  reflexivity.
Defined.

(** X20 on an empty table. *)
Lemma first_login_on_an_empty_table :
  ∃ queries,
    create_account_if_not_exists_and_new_session "fresh" "acc-9" 77 "name" "external"
      1850
    = Return queries
    ∧ @run_login merge_sort_engine 50%Q queries ∅
      = inr (<["acc-9" :=
                 <["external" :=
                     {["1" := {| session_key := "fresh"; expires := 1850 |}]}]>
                   (<["game" := ∅]> (<["external" := ∅]> ∅))]> ∅,
             [ {| returned_session_key := Some "fresh";
                  returned_expires := Some 1850 |} ]).
Proof.
  apply (@first_login_of_a_new_account merge_sort_engine 50%Q "fresh" "acc-9" 77
           "name" "external" 1850 ∅).
  - right; reflexivity.
  - reflexivity.
Defined.

(** X22 at [some_roles]: revoking moderator from the admin. *)
Lemma roles_stay_ordered_at_some_roles :
  ∃ after_admin after_mod,
    run_role_update (set_admin "root" false) some_roles = inr after_admin
    ∧ run_role_update (set_mod "root" false) some_roles = inr after_mod
    ∧ admins_are_moderators after_admin
    ∧ admins_are_moderators after_mod.
Proof.
  apply (role_updates_keep_admins_moderators "root" false some_roles).
  unfold admins_are_moderators. apply (bool_decide_unpack _). by vm_compute.
Defined.

(** X23 at [some_roles]: the four updates on the moderator [helper]. *)
Lemma role_updates_on_helper :
  run_role_update (set_admin "helper" true) some_roles
  = inr (<["helper" := {| admin := true; moderator := true |}]> some_roles)
  ∧ run_role_update (set_mod "helper" false) some_roles
    = inr (<["helper" := {| admin := false; moderator := false |}]> some_roles).
Proof.
  destruct (role_updates_by_case "helper" {| admin := false; moderator := true |}
              some_roles) as (Hgrant & _ & _ & Hrevoke); [reflexivity|].
  by split.
Defined.

(** X24 at [some_roles]: an id that is not in the table. *)
Lemma role_update_of_a_stranger :
  run_role_update (set_admin "nobody" true) some_roles = inr some_roles
  ∧ run_role_update (set_mod "nobody" true) some_roles = inr some_roles.
Proof.
  apply (role_update_of_unknown_account "nobody" true).
  reflexivity.
Defined.

(** ** Chart status, publication and likes at concrete inputs *)

Lemma publish_time_after_some_calls :
  ∃ c', after_calls some_accounts some_calls some_charts !! "c-2" = Some c'
        ∧ Chart.published_at c' = Some 1000
        ∧ Chart.author c' = Chart.author chart_c2.
Proof.
  apply (publish_time_is_written_once some_accounts some_calls some_charts "c-2"
           chart_c2 1000); reflexivity.
Defined.

Lemma first_publish_of_c1 :
  ∃ c' is_first_publish,
    run_update_status 2000 (update_status "c-1" PUBLIC (Some "ann")) some_charts
      some_accounts
    = inr (<["c-1" := c']> some_charts,
           [ {| returned_chart := chart_c1; returned_flag := is_first_publish |} ])
    ∧ Chart.status c' = PUBLIC
    ∧ Chart.author c' = Chart.author chart_c1
    ∧ Chart.scheduled_publish c' = Chart.scheduled_publish chart_c1
    ∧ (is_first_publish = true ↔ PUBLIC = PUBLIC ∧ Chart.published_at chart_c1 = None)
    ∧ (is_first_publish = true → Chart.published_at c' = Some 2000)
    ∧ (is_first_publish = false → Chart.published_at c' = Chart.published_at chart_c1)
    ∧ (PUBLIC = PUBLIC → is_Some (Chart.published_at c')).
Proof.
  apply (first_publish_is_flagged 2000 "c-1" PUBLIC (Some "ann") some_charts
           some_accounts chart_c1).
  - reflexivity.
  - intros _. reflexivity.
  - apply (bool_decide_unpack _). vm_compute. exact I.
Defined.

Lemma stranger_cannot_update_c1 :
  run_update_status 2000 (update_status "c-1" PUBLIC (Some "bob")) some_charts
    some_accounts
  = inr (some_charts, [])
  ∧ run_update_scheduled_publish (update_scheduled_publish "c-1" (Some 60) (Some "bob"))
      some_charts some_accounts
    = inr (some_charts, [])
  ∧ update_status "c-1" PUBLIC (Some "") = update_status "c-1" PUBLIC None
  ∧ update_scheduled_publish "c-1" (Some 60) (Some "")
    = update_scheduled_publish "c-1" (Some 60) None.
Proof.
  apply (chart_updates_check_the_owner_when_given 2000 "c-1" "bob" PUBLIC (Some 60)
           some_charts some_accounts).
  - discriminate.
  - intros c Hc. vm_compute in Hc. injection Hc as <-. discriminate.
Defined.

Lemma schedule_of_c2_is_cleared :
  ∃ c' schedule_changed,
    run_update_scheduled_publish (update_scheduled_publish "c-2" None (Some "bob"))
      some_charts some_accounts
    = inr (<["c-2" := c']> some_charts,
           [ {| returned_chart := chart_c2; returned_flag := schedule_changed |} ])
    ∧ Chart.scheduled_publish c' = to_timestamp <$> None
    ∧ Chart.status c' = Chart.status chart_c2
    ∧ Chart.published_at c' = Chart.published_at chart_c2
    ∧ Chart.author c' = Chart.author chart_c2
    ∧ (schedule_changed = true
       ↔ Chart.scheduled_publish chart_c2 ≠ to_timestamp <$> None).
Proof.
  apply (schedule_is_set_or_cleared "c-2" None (Some "bob") some_charts some_accounts
           chart_c2).
  - reflexivity.
  - intros _. reflexivity.
  - apply (bool_decide_unpack _). vm_compute. exact I.
Defined.

Lemma like_on_private_c2_stays :
  @run_add_like one_like_per_account (add_like "c-2" "ann") some_charts some_likes
  = inr some_likes
  ∧ run_remove_like (remove_like "c-2" "ann") some_charts some_likes = inr some_likes.
Proof.
  apply (@likes_need_an_open_chart one_like_per_account "c-2" "ann" some_charts
           some_likes).
  intros c Hc. vm_compute in Hc. injection Hc as <-. split; [reflexivity|discriminate].
Defined.

Lemma like_then_unlike_of_c1 :
  ∃ liked unliked,
    @run_add_like one_like_per_account (add_like "c-1" "ann") some_charts some_likes
    = inr liked
    ∧ run_remove_like (remove_like "c-1" "ann") some_charts liked = inr unliked
    ∧ (∀ like, like ∈ some_likes → like ∈ liked)
    ∧ (∀ like, like ∈ liked → like ∈ some_likes ∨ like = ("c-1", "ann"))
    ∧ (("c-1", "ann") ∉ unliked)
    ∧ (∀ like, like ≠ ("c-1", "ann") → (like ∈ unliked ↔ like ∈ some_likes))
    ∧ (("c-1", "ann") ∉ some_likes → unliked = some_likes).
Proof.
  apply (@like_then_unlike one_like_per_account "c-1" "ann" some_charts some_likes
           chart_c1).
  - reflexivity.
  - left. discriminate.
Defined.
